(** * pykg2vec: the Bayesian hyperparameter optimizer driver

    A shallow embedding of [pykg2vec/utils/bayesian_optimizer.py].

    The module is glue code: it resolves a model name to classes, builds a
    trainer, and drives hyperopt's [fmin] over the trainer.  The embedding
    keeps that shape:

    - Python exceptions are an inductive [exn]; a computation either returns
      ([Ok]) or raises ([Raise]).
    - The optimizer object ([self]) is a record of attributes, each bound or
      not ([option]); reading an unbound attribute raises [AttributeError].
    - Methods run in a state-and-exception monad [M] over the object and a
      log of what the program did to the outside (collaborator calls,
      console output, file-system writes), in program order.
    - The collaborators that live outside this file (the knowledge-graph
      accessor, the module system behind [importlib], the trainer, the
      suggestion algorithm of hyperopt) are taken as a record [Env] of
      functions; theorems quantify over it.
    - Strings are byte strings; model names are taken to be ASCII.
    - A Python float is carried around, compared, never computed with; it is
      a rational here (no NaN, no infinities). *)

From Stdlib Require Import QArith.
From stdpp Require Import gmap strings list fin_maps.

Local Open Scope string_scope.
Local Open Scope Z_scope.
Local Open Scope list_scope.

(** ** Python values *)

Definition float := Q.

(** The values a hyperparameter can take: what a search space samples and
    what a table cell holds. *)
Inductive scalar :=
| SNone
| SBool (b : bool)
| SInt (z : Z)
| SFloat (x : float)
| SStr (s : string).

(** A [pathlib.Path], as its components. *)
Definition path := list string.

(** What an attribute of a configuration object can hold. *)
Inductive value :=
| VScalar (s : scalar)
| VDict (d : gmap string scalar)
| VPath (p : path).

(** An object's [__dict__]. *)
Abbreviation obj_dict := (gmap string value).

Inductive exn :=
| Exception (msg : string)
| KeyError (key : string)
| IndexError (msg : string)
| TypeError (msg : string)
| ValueError (msg : string)
| AttributeError (obj attr : string)
| ImportError (name : string)
| ModuleNotFoundError (name : string)
| OtherError (kind msg : string).

Inductive res (A : Type) :=
| Ok (a : A)
| Raise (e : exn).
Arguments Ok {A} a.
Arguments Raise {A} e.

Definition res_bind {A B} (r : res A) (k : A → res B) : res B :=
  match r with
  | Ok a => k a
  | Raise e => Raise e
  end.

(** ** [str.lower] on ASCII strings *)

Definition lower_ascii (c : Ascii.ascii) : Ascii.ascii :=
  let n := Ascii.N_of_ascii c in
  if ((65 <=? n) && (n <=? 90))%N then Ascii.ascii_of_N (n + 32) else c.

Fixpoint lower (s : string) : string :=
  match s with
  | EmptyString => EmptyString
  | String c s' => String (lower_ascii c) (lower s')
  end.

(** ** Insertion-ordered dictionaries with string keys

    [modelMap], [configMap], [hypMap] and a search space are Python dict
    literals whose order of keys is observable (the supported-names message,
    the columns of the trial table). *)

Definition odict (V : Type) := list (string * V).

Fixpoint odict_get {V} (d : odict V) (k : string) : option V :=
  match d with
  | [] => None
  | (k', v) :: d' => if String.eqb k' k then Some v else odict_get d' k
  end.

Definition odict_keys {V} (d : odict V) : list string := map fst d.
Definition odict_values {V} (d : odict V) : list V := map snd d.

(** [d[k]] *)
Definition getitem {V} (d : odict V) (k : string) : res V :=
  match odict_get d k with
  | Some v => Ok v
  | None => Raise (KeyError k)
  end.

(** [sep.join(l)] *)
Fixpoint join (sep : string) (l : list string) : string :=
  match l with
  | [] => ""
  | [x] => x
  | x :: l' => x +:+ sep +:+ join sep l'
  end.

(** ** Module-level constants *)

Definition model_path := "pykg2vec.core".
Definition config_path := "pykg2vec.config.config".
Definition hyper_param_path := "pykg2vec.config.hyperparams".

Definition modelMap : odict string :=
  [("complex", "Complex"); ("conve", "ConvE"); ("hole", "HoLE");
   ("distmult", "DistMult"); ("kg2e", "KG2E"); ("ntn", "NTN");
   ("proje_pointwise", "ProjE_pointwise"); ("rescal", "Rescal");
   ("rotate", "RotatE"); ("slm", "SLM"); ("sme", "SME");
   ("transd", "TransD"); ("transe", "TransE"); ("transg", "TransG");
   ("transh", "TransH"); ("transm", "TransM"); ("transr", "TransR");
   ("tucker", "TuckER")].

Definition configMap : odict string :=
  [("complex", "ComplexConfig"); ("conve", "ConvEConfig");
   ("hole", "HoLEConfig"); ("distmult", "DistMultConfig");
   ("kg2e", "KG2EConfig"); ("ntn", "NTNConfig");
   ("proje_pointwise", "ProjE_pointwiseConfig");
   ("rescal", "RescalConfig"); ("rotate", "RotatEConfig");
   ("slm", "SLMConfig"); ("sme", "SMEConfig"); ("transd", "TransDConfig");
   ("transe", "TransEConfig"); ("transg", "TransGConfig");
   ("transh", "TransHConfig"); ("transm", "TransMConfig");
   ("transr", "TransRConfig"); ("tucker", "TuckERConfig")].

Definition hypMap : odict string :=
  [("complex", "ComplexParams"); ("conve", "ConvEParams");
   ("hole", "HoLEParams"); ("distmult", "DistMultParams");
   ("kg2e", "KG2EParams"); ("ntn", "NTNParams");
   ("proje_pointwise", "ProjE_pointwiseParams");
   ("rescal", "RescalParams"); ("rotate", "RotatEParams");
   ("slm", "SLMParams"); ("sme", "SMEParams"); ("transd", "TransDParams");
   ("transe", "TransEParams"); ("transg", "TransGParams");
   ("transh", "TransHParams"); ("transm", "TransMParams");
   ("transr", "TransRParams"); ("tucker", "TuckERParams")].

(** The list literal tested at the top of [__init__]. *)
Definition unsupported : list string :=
  ["tucker"; "tucker_v2"; "conve"; "convkb"; "proje_pointwise"].

(** ** The search space and hyperopt's view of it

    Modelled from the spec: the search space is a "mapping from
    hyperparameter name to a sampling distribution (categorical, uniform,
    etc.)"; hyperopt itself is not part of the repository.  A categorical
    distribution is sampled as an index into its options, a uniform one as
    the value itself; [space_eval] decodes a sampled point "back into named
    values". *)
Inductive dist :=
| hp_choice (options : list scalar)
| hp_uniform (low high : float).

Abbreviation search_space_t := (odict dist).

(** Membership of a decoded value in a declared distribution. *)
Definition in_dist (d : dist) (v : scalar) : Prop :=
  match d with
  | hp_choice options => v ∈ options
  | hp_uniform low high => ∃ x, v = SFloat x ∧ (low <= x)%Q ∧ (x <= high)%Q
  end.

Definition decode (d : dist) (v : scalar) : res scalar :=
  match d with
  | hp_choice options =>
      match v with
      | SInt i =>
          if (0 <=? i)%Z then
            match options !! Z.to_nat i with
            | Some o => Ok o
            | None => Raise (IndexError "list index out of range")
            end
          else Raise (IndexError "list index out of range")
      | _ => Raise (TypeError "list indices must be integers")
      end
  | hp_uniform _ _ => Ok v
  end.

Fixpoint space_eval (space : search_space_t) (vals : gmap string scalar)
  : res (gmap string scalar) :=
  match space with
  | [] => Ok ∅
  | (k, d) :: space' =>
      match vals !! k with
      | None => Raise (KeyError k)
      | Some v =>
          res_bind (decode d v) (λ x,
          res_bind (space_eval space' vals) (λ r,
          Ok (<[k := x]> r)))
      end
  end.

(** An encoded value fits its distribution. *)
Definition enc_valid (d : dist) (v : scalar) : Prop :=
  match d with
  | hp_choice options =>
      ∃ i, v = SInt i ∧ 0 <= i ∧ (Z.to_nat i < length options)%nat
  | hp_uniform low high => ∃ x, v = SFloat x ∧ (low <= x)%Q ∧ (x <= high)%Q
  end.

(** A sampled point fits the space: every hyperparameter has one fitting
    value. *)
Definition point_valid (space : search_space_t) (vals : gmap string scalar)
  : Prop :=
  ∀ k d, (k, d) ∈ space → ∃ v, vals !! k = Some v ∧ enc_valid d v.

(** ** Records of the program's data *)

(** The argument-parser namespace handed to the constructor. *)
Record Args := {
  model : string;
  dataset_name : string;
  dataset_path : option string;
  debug : bool;
  max_number_trials : Z;
}.

(** A pandas [DataFrame]: its column names and its rows, each under an
    index label, in order of insertion. *)
Record DataFrame := {
  df_columns : list string;
  df_rows : list (nat * list scalar);
}.

(** [df.loc[idx] = row]: a row of the wrong width is refused, an existing
    label is overwritten in place, a new label is appended. *)
Fixpoint set_row (rows : list (nat * list scalar)) (idx : nat)
  (row : list scalar) : list (nat * list scalar) :=
  match rows with
  | [] => [(idx, row)]
  | (i, r) :: rows' =>
      if Nat.eqb i idx then (i, row) :: rows'
      else (i, r) :: set_row rows' idx row
  end.

Definition loc_set (df : DataFrame) (idx : nat) (row : list scalar)
  : res DataFrame :=
  if Nat.eqb (length row) (length (df_columns df)) then
    Ok {| df_columns := df_columns df;
          df_rows := set_row (df_rows df) idx row |}
  else Raise (ValueError "cannot set a row with mismatched columns").

(** What the objective returns to hyperopt: [{'loss': ..., 'status': ...}]. *)
Record LossResult := {
  loss : float;
  status : string;
}.

Definition STATUS_OK := "ok".

(** One entry of [trials.trials]: hyperopt keeps the sampled point under
    [trial['misc']['vals']], each value wrapped in a list, and the
    objective's answer under [trial['result']]. *)
Record Trial := {
  tid : nat;
  misc_vals : gmap string (list scalar);
  result : LossResult;
}.

(** What the program does to the outside, in program order. *)
Inductive event :=
| ev_KnowledgeGraph (dataset : string) (custom_dataset_path : option string)
| ev_import_module (name : string)
| ev_new_params
| ev_get_args
| ev_new_config (kge_args : obj_dict)
| ev_new_model (config : obj_dict)
| ev_new_Trainer (debug tuning : bool)
| ev_build_model (config : obj_dict)
| ev_summary_hyperparameter
| ev_tune_model
| ev_print (s : string)
| ev_print_table (df : DataFrame)
| ev_pprint (d : gmap string scalar)
| ev_mkdir (p : path)
| ev_to_csv (p : path) (df : DataFrame).

Section Optimizer.

(** The internals of the collaborators' objects are opaque to this file. *)
Context {KG ModelState TrainerState : Type}.

Record Model := {
  model_name : string;
  model_state : ModelState;
}.

(** The trainer: what the optimizer reads and writes of it ([config],
    [model]) and the rest. *)
Record Trainer := {
  config : obj_dict;
  trainer_model : Model;
  trainer_state : TrainerState;
}.

Definition with_config (t : Trainer) (c : obj_dict) : Trainer :=
  {| config := c; trainer_model := trainer_model t;
     trainer_state := trainer_state t |}.

Record HyperParams := {
  hp_search_space : search_space_t;
}.

(** What [getattr] on a module can deliver: the classes the constructor
    looks up by name, each given by what calling it does. *)
Inductive pyobj :=
| ModelClass (new : obj_dict → res Model)
| ConfigClass (new : obj_dict → res obj_dict)
| ParamsClass (new : res HyperParams)
| ArgParserClass (get_args : list string → res obj_dict)
| OtherObject.

(** An imported module, by its attributes. *)
Definition py_module := string → option pyobj.

(** The collaborators. *)
Record Env := {
  KnowledgeGraph : string → option string → res KG;
  import_module : string → res py_module;
  Trainer_new : Model → bool → bool → res Trainer;
  build_model : Trainer → res unit * Trainer;
  summary_hyperparameter : Trainer → res unit * Trainer;
  tune_model : Trainer → res float * Trainer;
  tpe_suggest : search_space_t → list Trial → gmap string (list scalar);
}.

(** The attributes of a [BaysOptimizer] object; [None] is "not bound". *)
Record BaysOptimizer := {
  args : option Args;
  knowledge_graph : option KG;
  model_obj : option pyobj;
  config_obj : option pyobj;
  trainer : option Trainer;
  search_space : option search_space_t;
  max_evals : option Z;
  best_result : option (gmap string scalar);
}.

(** A freshly allocated object, before [__init__] runs. *)
Definition new_object : BaysOptimizer :=
  {| args := None; knowledge_graph := None; model_obj := None;
     config_obj := None; trainer := None; search_space := None;
     max_evals := None; best_result := None |}.

Record state := {
  self : BaysOptimizer;
  log : list event;
}.

Definition initial_state : state := {| self := new_object; log := [] |}.

(** ** The monad of methods *)

Definition M (A : Type) := state → res A * state.

Definition ret {A} (a : A) : M A := λ st, (Ok a, st).
Definition raise {A} (e : exn) : M A := λ st, (Raise e, st).
Definition bind {A B} (m : M A) (k : A → M B) : M B :=
  λ st, match m st with
        | (Ok a, st') => k a st'
        | (Raise e, st') => (Raise e, st')
        end.
Definition lift {A} (r : res A) : M A := λ st, (r, st).

Definition emit (e : event) : M unit :=
  λ st, (Ok tt, {| self := self st; log := log st ++ [e] |}).

Definition update (f : BaysOptimizer → BaysOptimizer) : M unit :=
  λ st, (Ok tt, {| self := f (self st); log := log st |}).

(** [self.attr], for an attribute that may not be bound. *)
Definition read {A} (attr : string) (f : BaysOptimizer → option A) : M A :=
  λ st, match f (self st) with
        | Some a => (Ok a, st)
        | None => (Raise (AttributeError "BaysOptimizer" attr), st)
        end.

(** [try: body  except ...: handler], for the exceptions [catches] selects. *)
Definition try_except {A} (body : M A) (catches : exn → bool)
  (handler : M A) : M A :=
  λ st, match body st with
        | (Raise e, st') => if catches e then handler st' else (Raise e, st')
        | r => r
        end.

Declare Scope monad_scope.
Delimit Scope monad_scope with M.
Notation "x <- c ;; k" := (bind c (λ x, k))
  (at level 100, c at next level, right associativity) : monad_scope.
Notation "c ;; k" := (bind c (λ _, k))
  (at level 100, right associativity) : monad_scope.
Local Open Scope monad_scope.

(** ** Attribute assignments on [self] *)

Definition set_args (a : Args) (o : BaysOptimizer) : BaysOptimizer :=
  {| args := Some a; knowledge_graph := knowledge_graph o;
     model_obj := model_obj o; config_obj := config_obj o;
     trainer := trainer o; search_space := search_space o;
     max_evals := max_evals o; best_result := best_result o |}.

Definition set_knowledge_graph (g : KG) (o : BaysOptimizer) : BaysOptimizer :=
  {| args := args o; knowledge_graph := Some g;
     model_obj := model_obj o; config_obj := config_obj o;
     trainer := trainer o; search_space := search_space o;
     max_evals := max_evals o; best_result := best_result o |}.

Definition set_model_obj (c : pyobj) (o : BaysOptimizer) : BaysOptimizer :=
  {| args := args o; knowledge_graph := knowledge_graph o;
     model_obj := Some c; config_obj := config_obj o;
     trainer := trainer o; search_space := search_space o;
     max_evals := max_evals o; best_result := best_result o |}.

Definition set_config_obj (c : pyobj) (o : BaysOptimizer) : BaysOptimizer :=
  {| args := args o; knowledge_graph := knowledge_graph o;
     model_obj := model_obj o; config_obj := Some c;
     trainer := trainer o; search_space := search_space o;
     max_evals := max_evals o; best_result := best_result o |}.

Definition set_trainer (t : Trainer) (o : BaysOptimizer) : BaysOptimizer :=
  {| args := args o; knowledge_graph := knowledge_graph o;
     model_obj := model_obj o; config_obj := config_obj o;
     trainer := Some t; search_space := search_space o;
     max_evals := max_evals o; best_result := best_result o |}.

Definition set_search_space (s : search_space_t) (o : BaysOptimizer)
  : BaysOptimizer :=
  {| args := args o; knowledge_graph := knowledge_graph o;
     model_obj := model_obj o; config_obj := config_obj o;
     trainer := trainer o; search_space := Some s;
     max_evals := max_evals o; best_result := best_result o |}.

Definition set_max_evals (n : Z) (o : BaysOptimizer) : BaysOptimizer :=
  {| args := args o; knowledge_graph := knowledge_graph o;
     model_obj := model_obj o; config_obj := config_obj o;
     trainer := trainer o; search_space := search_space o;
     max_evals := Some n; best_result := best_result o |}.

Definition set_best_result (b : gmap string scalar) (o : BaysOptimizer)
  : BaysOptimizer :=
  {| args := args o; knowledge_graph := knowledge_graph o;
     model_obj := model_obj o; config_obj := config_obj o;
     trainer := trainer o; search_space := search_space o;
     max_evals := max_evals o; best_result := Some b |}.

(** ** Calls into the collaborators *)

Variable env : Env.

Definition is_ModuleNotFoundError (e : exn) : bool :=
  match e with
  | ModuleNotFoundError _ => true
  | _ => false
  end.

(** [importlib.import_module(name)] *)
Definition do_import (name : string) : M py_module :=
  emit (ev_import_module name);;
  lift (import_module env name).

(** [getattr(module, name)] *)
Definition getattr (m : py_module) (name : string) : res pyobj :=
  match m name with
  | Some o => Ok o
  | None => Raise (AttributeError "module" name)
  end.

(** [from module import name] *)
Definition import_from (module name : string) : M pyobj :=
  m <- do_import module;;
  match m name with
  | Some o => ret o
  | None => raise (ImportError name)
  end.

Definition not_callable {A} : res A :=
  Raise (TypeError "object is not callable").

Definition call_ParamsClass (c : pyobj) : M HyperParams :=
  emit ev_new_params;;
  lift (match c with ParamsClass new => new | _ => not_callable end).

Definition call_get_args (c : pyobj) (argv : list string) : M obj_dict :=
  emit ev_get_args;;
  lift (match c with ArgParserClass f => f argv | _ => not_callable end).

Definition call_ConfigClass (c : pyobj) (kge_args : obj_dict) : M obj_dict :=
  emit (ev_new_config kge_args);;
  lift (match c with ConfigClass new => new kge_args | _ => not_callable end).

Definition call_ModelClass (c : pyobj) (cfg : obj_dict) : M Model :=
  emit (ev_new_model cfg);;
  lift (match c with ModelClass new => new cfg | _ => not_callable end).

Definition call_Trainer (m : Model) (dbg tuning : bool) : M Trainer :=
  emit (ev_new_Trainer dbg tuning);;
  lift (Trainer_new env m dbg tuning).

(** A method of [self.trainer]: it may change the trainer, also when it
    raises. *)
Definition call_trainer {A} (ev : Trainer → event)
  (method : Trainer → res A * Trainer) : M A :=
  t <- read "trainer" trainer;;
  emit (ev t);;
  λ st, let (r, t') := method t in
        (r, {| self := set_trainer t' (self st); log := log st |}).

(** ** [BaysOptimizer.__init__] *)

Definition unsupported_message (name : string) : string :=
  "Model " +:+ name +:+ " has not been supported in tuning hyperparameters!".

Definition not_implemented_message (model_name : string) : string :=
  model_name +:+ " not implemented! Select from: " +:+
  join " " (odict_values modelMap).

(** The body of the [try] block (lines 114-117); its value is what the
    local [hyper_params] is assigned. *)
Definition resolve_classes (model_name : string) : M HyperParams :=
  n <- lift (getitem modelMap model_name);;
  m <- do_import (model_path +:+ "." +:+ n);;
  n' <- lift (getitem modelMap model_name);;
  c <- lift (getattr m n');;
  update (set_model_obj c);;
  m <- do_import config_path;;
  n <- lift (getitem configMap model_name);;
  c <- lift (getattr m n);;
  update (set_config_obj c);;
  m <- do_import hyper_param_path;;
  n <- lift (getitem hypMap model_name);;
  c <- lift (getattr m n);;
  call_ParamsClass c.

(** Lines 123-131: what follows the [try] statement, with the local
    [hyper_params] as the [try] statement left it. *)
Definition bind_trainer (a : Args) (hyper_params : option HyperParams)
  : M unit :=
  p <- import_from config_path "KGEArgParser";;
  kge_args <- call_get_args p [];;
  let kge_args :=
    <["dataset_name" := VScalar (SStr (dataset_name a))]> kge_args in
  c <- read "config_obj" config_obj;;
  cfg <- call_ConfigClass c kge_args;;
  c <- read "model_obj" model_obj;;
  m <- call_ModelClass c cfg;;
  a' <- read "args" args;;
  t <- call_Trainer m (debug a') true;;
  update (set_trainer t);;
  s <- lift (match hyper_params with
             | Some h => Ok (hp_search_space h)
             | None => Raise (AttributeError "NoneType" "search_space")
             end);;
  update (set_search_space s);;
  a' <- read "args" args;;
  (if negb (debug a') then
     a' <- read "args" args;;
     update (set_max_evals (max_number_trials a'))
   else update (set_max_evals 1)).

(** The [try] statement (lines 113-121). *)
Definition try_resolve (model_name : string) : M (option HyperParams) :=
  try_except (h <- resolve_classes model_name;; ret (Some h))
    is_ModuleNotFoundError
    (emit (ev_print (not_implemented_message model_name));; ret None).

Definition __init__ (args0 : option Args) : M unit :=
  a <- lift (match args0 with
             | Some a => Ok a
             | None => Raise (AttributeError "NoneType" "model")
             end);;
  if bool_decide (lower (model a) ∈ unsupported) then
    raise (Exception (unsupported_message (model a)))
  else
    let model_name := lower (model a) in
    update (set_args a);;
    emit (ev_KnowledgeGraph (dataset_name a) (dataset_path a));;
    g <- lift (KnowledgeGraph env (dataset_name a) (dataset_path a));;
    update (set_knowledge_graph g);;
    hyper_params <- try_resolve model_name;;
    bind_trainer a hyper_params.

(** ** [BaysOptimizer.get_loss] *)

(** [config.hyperparameters[key] = value] *)
Definition setitem_hyperparameters (c : obj_dict) (key : string)
  (v : scalar) : res obj_dict :=
  match c !! "hyperparameters" with
  | Some (VDict d) => Ok (<["hyperparameters" := VDict (<[key := v]> d)]> c)
  | Some _ => Raise (TypeError "object does not support item assignment")
  | None => Raise (AttributeError "Config" "hyperparameters")
  end.

(** [self.trainer.config.__dict__[key] = value] and
    [self.trainer.config.<key> = value] *)
Definition set_config_attr (key : string) (v : scalar) : M unit :=
  t <- read "trainer" trainer;;
  update (set_trainer (with_config t (<[key := VScalar v]> (config t)))).

(** [self.trainer.config.hyperparameters[key] = value] *)
Definition set_config_hyperparameter (key : string) (v : scalar) : M unit :=
  t <- read "trainer" trainer;;
  c <- lift (setitem_hyperparameters (config t) key v);;
  update (set_trainer (with_config t c)).

Fixpoint for_each {A} (l : list A) (body : A → M unit) : M unit :=
  match l with
  | [] => ret tt
  | x :: l' => body x;; for_each l' body
  end.

(** The entries of [params] are visited in the order of [map_to_list]; the
    keys of a dict are distinct, so the order shows only in how far the
    loop got when it raises. *)
Definition get_loss (params : gmap string scalar) : M LossResult :=
  for_each (map_to_list params) (λ kv,
    set_config_attr kv.1 kv.2;;
    set_config_hyperparameter kv.1 kv.2);;
  set_config_attr "disp_result" (SBool false);;
  set_config_attr "disp_summary" (SBool false);;
  set_config_attr "save_model" (SBool false);;
  set_config_attr "test_num" (SInt 1000);;
  a <- read "args" args;;
  (if debug a then
     set_config_attr "epochs" (SInt 1);;
     set_config_hyperparameter "epochs" (SInt 1)
   else ret tt);;
  call_trainer (λ t, ev_build_model (config t)) (build_model env);;
  call_trainer (λ _, ev_summary_hyperparameter) (summary_hyperparameter env);;
  l <- call_trainer (λ _, ev_tune_model) (tune_model env);;
  ret {| loss := l; status := STATUS_OK |}.

(** ** hyperopt's [fmin] and [Trials]

    Modelled from the spec: hyperopt is an external optimizer, absent from
    the repository.  The spec's words: the search runs "for a bounded number
    of evaluations", "each trial runs to completion (full train/evaluate
    cycle) before the next is sampled", a trial is "one sampled point from
    the search space, its resulting loss, and its index; append-only across
    the run", "any failure during a trial propagates and aborts the search",
    and the search "minimize[s] the loss".  The suggestion algorithm
    ([tpe.suggest]) is a collaborator: it proposes the next point from the
    space and the trials so far. *)

(** [{k: v[0] for k, v in vals.items()}] *)
Definition unwrap_vals (vals : gmap string (list scalar))
  : res (gmap string scalar) :=
  if bool_decide (map_Forall (λ _ v, is_Some (head v)) vals)
  then Ok (omap head vals)
  else Raise (IndexError "list index out of range").

Fixpoint fmin_loop (fn : gmap string scalar → M LossResult)
  (space : search_space_t) (n : nat) (trials : list Trial)
  : M (list Trial) :=
  match n with
  | O => ret trials
  | S n' =>
      let vals := tpe_suggest env space trials in
      point <- lift (unwrap_vals vals);;
      params <- lift (space_eval space point);;
      r <- fn params;;
      fmin_loop fn space n'
        (trials ++ [{| tid := length trials; misc_vals := vals;
                       result := r |}])
  end.

(** The first trial of least loss among those that report success. *)
Fixpoint best_trial (trials : list Trial) : option Trial :=
  match trials with
  | [] => None
  | t :: trials' =>
      if String.eqb (status (result t)) STATUS_OK then
        match best_trial trials' with
        | Some b =>
            if Qlt_le_dec (loss (result b)) (loss (result t))
            then Some b else Some t
        | None => Some t
        end
      else best_trial trials'
  end.

(** [fmin(fn, space, trials=trials, algo=tpe.suggest, max_evals=max_evals)]:
    the best point, still encoded, and [trials] as the run leaves it. *)
Definition fmin (fn : gmap string scalar → M LossResult)
  (space : search_space_t) (trials : list Trial) (max_evals0 : Z)
  : M (gmap string scalar * list Trial) :=
  trials' <- fmin_loop fn space
               (Z.to_nat (max_evals0 - Z.of_nat (length trials))) trials;;
  match best_trial trials' with
  | None =>
      raise (Exception
        "There are no evaluation tasks, cannot return argmin of task losses.")
  | Some t =>
      b <- lift (unwrap_vals (misc_vals t));;
      ret (b, trials')
  end.

(** ** [BaysOptimizer.optimize] *)

(** [for k in columns: row.append(translated_eval[k])] *)
Fixpoint row_cells (columns : list string)
  (translated_eval : gmap string scalar) : res (list scalar) :=
  match columns with
  | [] => Ok []
  | k :: columns' =>
      match translated_eval !! k with
      | Some v =>
          res_bind (row_cells columns' translated_eval) (λ r, Ok (v :: r))
      | None => Raise (KeyError k)
      end
  end.

(** The loop over [enumerate(trials.trials)], from index [idx] on. *)
Fixpoint fill_table (columns : list string) (idx : nat)
  (trials : list Trial) (results : DataFrame) : M DataFrame :=
  match trials with
  | [] => ret results
  | trial :: trials' =>
      s <- read "search_space" search_space;;
      vals <- lift (unwrap_vals (misc_vals trial));;
      translated_eval <- lift (space_eval s vals);;
      cells <- lift (row_cells columns translated_eval);;
      let row :=
        [SInt (Z.of_nat idx)] ++ cells ++ [SFloat (loss (result trial))] in
      results' <- lift (loc_set results idx row);;
      fill_table columns (S idx) trials' results'
  end.

(** [config.<name>] *)
Definition getattr_config (c : obj_dict) (name : string) : res value :=
  match c !! name with
  | Some v => Ok v
  | None => Raise (AttributeError "Config" name)
  end.

(** [p / name], for a [pathlib.Path] on the left. *)
Definition truediv (p : value) (name : string) : res path :=
  match p with
  | VPath p => Ok (p ++ [name])
  | _ => Raise (TypeError "unsupported operand type(s) for /")
  end.

Definition optimize : M unit :=
  let trials : list Trial := [] in
  s <- read "search_space" search_space;;
  n <- read "max_evals" max_evals;;
  r <- fmin get_loss s trials n;;
  update (set_best_result r.1);;
  let trials := r.2 in
  s <- read "search_space" search_space;;
  let columns := odict_keys s in
  let results :=
    {| df_columns := ["iteration"] ++ columns ++ ["loss"]; df_rows := [] |} in
  results <- fill_table columns 0 trials results;;
  t <- read "trainer" trainer;;
  d <- lift (getattr_config (config t) "result");;
  t <- read "trainer" trainer;;
  p <- lift (truediv d (model_name (trainer_model t)));;
  emit (ev_mkdir p);;
  emit (ev_to_csv (p ++ ["trials.csv"]) results);;
  emit (ev_print_table results);;
  emit (ev_print "Found Golden Setting:");;
  s <- read "search_space" search_space;;
  b <- read "best_result" best_result;;
  best <- lift (space_eval s b);;
  emit (ev_pprint best).

(** ** [BaysOptimizer.return_best] *)

Definition return_best : M (gmap string scalar) :=
  s <- read "search_space" search_space;;
  b <- read "best_result" best_result;;
  lift (space_eval s b).

End Optimizer.

Arguments Model : clear implicits.
Arguments Trainer : clear implicits.
Arguments pyobj : clear implicits.
Arguments py_module : clear implicits.
Arguments Env : clear implicits.
Arguments BaysOptimizer : clear implicits.
Arguments state : clear implicits.
Arguments M : clear implicits.

(** ** Vocabulary of the properties *)

(** A training-and-evaluation cycle of the trainer: one per evaluation of
    the objective that runs to its end. *)
Definition is_tune_model (e : event) : bool :=
  match e with
  | ev_tune_model => true
  | _ => false
  end.

Definition evaluations (l : list event) : nat :=
  length (filter (λ e, is_tune_model e = true) l).

(** ** The configuration of a trial

    What the three steps of [get_loss] make of a configuration [c] whose
    [hyperparameters] attribute holds the dict [d]. *)

(** After the loop over [params.items()]. *)
Definition copied_config (params : gmap string scalar) (c : obj_dict)
  (d : gmap string scalar) : obj_dict :=
  <["hyperparameters" := VDict (params ∪ d)]> ((VScalar <$> params) ∪ c).

(** After the four settings common to every trial. *)
Definition forced_config (c : obj_dict) : obj_dict :=
  <["test_num" := VScalar (SInt 1000)]>
  (<["save_model" := VScalar (SBool false)]>
   (<["disp_summary" := VScalar (SBool false)]>
    (<["disp_result" := VScalar (SBool false)]> c))).

(** After the [if self.args.debug] statement. *)
Definition debug_config (dbg : bool) (c : obj_dict) (d : gmap string scalar)
  : obj_dict :=
  if dbg then
    <["hyperparameters" := VDict (<["epochs" := SInt 1]> d)]>
    (<["epochs" := VScalar (SInt 1)]> c)
  else c.

Definition tuning_config (dbg : bool) (params : gmap string scalar)
  (c : obj_dict) (d : gmap string scalar) : obj_dict :=
  debug_config dbg (forced_config (copied_config params c d)) (params ∪ d).



(** The events of evaluations that ran to their end, one per configuration
    the trainer was built with. *)
Definition trial_events (configs : list obj_dict) : list event :=
  flat_map (λ c, [ev_build_model c; ev_summary_hyperparameter; ev_tune_model])
    configs.

(** The events that end a completed [optimize]: the directory, the file,
    the two printed tables. *)
Definition report_events (p : path) (df : DataFrame)
  (best : gmap string scalar) : list event :=
  [ev_mkdir p; ev_to_csv (p ++ ["trials.csv"]) df; ev_print_table df;
   ev_print "Found Golden Setting:"; ev_pprint best].

(** A configuration the driver can work with: its [hyperparameters] is a
    dict and its [result] is a path. *)
Definition config_ready (c : obj_dict) : Prop :=
  (∃ d, c !! "hyperparameters" = Some (VDict d)) ∧
  (∃ rp, c !! "result" = Some (VPath rp)).




Section Vocabulary.

Context {KG ModelState TrainerState : Type}.
Implicit Types (env : Env KG ModelState TrainerState).
Implicit Types (st : state KG ModelState TrainerState) (a : Args).

(** What was done to the outside between two states of a run. *)
Definition events_since st st' : list event :=
  drop (length (log st)) (log st').

(** The state in which the [try] block is entered. *)
Definition entered_try a (g : KG) st : state KG ModelState TrainerState :=
  {| self := set_knowledge_graph g (set_args a (self st));
     log := log st ++ [ev_KnowledgeGraph (dataset_name a) (dataset_path a)] |}.

(** A computation moves the state along a relation, whatever its
    outcome. *)
Definition steps (R : relation (state KG ModelState TrainerState)) {A}
  (m : M KG ModelState TrainerState A) : Prop :=
  ∀ st, R st (m st).2.

(** The attribute [f] of the object is left as it was. *)
Definition same {B} (f : BaysOptimizer KG ModelState TrainerState → B)
  : relation (state KG ModelState TrainerState) :=
  λ st st', f (self st') = f (self st).

(** The log only grows. *)
Definition log_extends : relation (state KG ModelState TrainerState) :=
  λ st st', log st `prefix_of` log st'.

(** The log is left as it was. *)
Definition same_log : relation (state KG ModelState TrainerState) :=
  λ st st', log st' = log st.

(** The log grows by events among which at most [k] are evaluations. *)
Definition within (k : nat) : relation (state KG ModelState TrainerState) :=
  λ st st', ∃ l, log st' = log st ++ l ∧ (evaluations l ≤ k)%nat.

Definition grows (k : nat) {A} (m : M KG ModelState TrainerState A) : Prop :=
  ∀ st, within k st (m st).2.

(** What a relation must allow for the primitive effects. *)
Definition allows_emit (R : relation (state KG ModelState TrainerState))
  : Prop :=
  ∀ st e, R st {| self := self st; log := log st ++ [e] |}.

Definition allows_update (R : relation (state KG ModelState TrainerState))
  (f : BaysOptimizer KG ModelState TrainerState
       → BaysOptimizer KG ModelState TrainerState) : Prop :=
  ∀ st, R st {| self := f (self st); log := log st |}.

(** A trial as the search records it: it reports success, and its point is
    one the suggestion algorithm proposed for the space. *)
Definition recorded env (space : search_space_t) (t : Trial) : Prop :=
  status (result t) = STATUS_OK ∧
  ∃ prev, misc_vals t = tpe_suggest env space prev.

(** The suggestion algorithm proposes points of the space [space]. *)
Definition suggest_valid env (space : search_space_t) : Prop :=
  ∀ trials point,
    unwrap_vals (tpe_suggest env space trials) = Ok point →
    point_valid space point.

(** The trainer's three methods return, and leave the configuration one
    the driver can work with. *)
Definition trainer_returns env : Prop :=
  ∀ t : Trainer ModelState TrainerState,
    config_ready (config t) →
    (∃ t', build_model env t = (Ok tt, t') ∧ config_ready (config t')) ∧
    (∃ t', summary_hyperparameter env t = (Ok tt, t') ∧
           config_ready (config t')) ∧
    (∃ l t', tune_model env t = (Ok l, t') ∧ config_ready (config t')).

(** Every point the suggestion algorithm proposes for [space] decodes. *)
Definition suggest_decodes env (space : search_space_t) : Prop :=
  ∀ trials, ∃ point params,
    unwrap_vals (tpe_suggest env space trials) = Ok point ∧
    space_eval space point = Ok params.

(** An optimizer on which a search runs to its end: it is constructed,
    asks for at least one evaluation, no hyperparameter is called
    [hyperparameters] or [result], and the collaborators do their part. *)
Definition tunable env st : Prop :=
  ∃ a s n t,
    args (self st) = Some a ∧ search_space (self st) = Some s ∧
    max_evals (self st) = Some n ∧ trainer (self st) = Some t ∧
    1 ≤ n ∧ config_ready (config t) ∧
    ("hyperparameters" ∉ odict_keys s) ∧ ("result" ∉ odict_keys s) ∧
    suggest_decodes env s ∧ trainer_returns env.

(** The log grows by events that all satisfy [P]. *)
Definition emits_only (P : event → Prop)
  : relation (state KG ModelState TrainerState) :=
  λ st st', ∃ l, log st' = log st ++ l ∧ Forall P l.

(** The trainer's three methods return and leave the configuration as it
    is. *)
Definition trainer_keeps_config env : Prop :=
  ∀ t : Trainer ModelState TrainerState,
    (∃ t', build_model env t = (Ok tt, t') ∧ config t' = config t) ∧
    (∃ t', summary_hyperparameter env t = (Ok tt, t') ∧
           config t' = config t) ∧
    (∃ l t', tune_model env t = (Ok l, t') ∧ config t' = config t).

(** The collaborators do their part for the model [a] names: the accessor
    is built, the modules resolve and hold the classes under the names the
    three maps give, the argument parser, the configuration class, the
    model class and the trainer return. *)
Definition collaborators_ok env a (g : KG) (h : HyperParams)
  (mcls ccls : pyobj ModelState) (kge cfg : obj_dict)
  (m : Model ModelState) (t : Trainer ModelState TrainerState) : Prop :=
  let name := lower (model a) in
  KnowledgeGraph env (dataset_name a) (dataset_path a) = Ok g ∧
  (∃ mm cm hm get_args,
     (∀ n, odict_get modelMap name = Some n →
           import_module env (model_path +:+ "." +:+ n) = Ok mm ∧
           mm n = Some mcls) ∧
     import_module env config_path = Ok cm ∧
     (∀ n, odict_get configMap name = Some n → cm n = Some ccls) ∧
     import_module env hyper_param_path = Ok hm ∧
     (∀ n, odict_get hypMap name = Some n →
           hm n = Some (ParamsClass (Ok h))) ∧
     cm "KGEArgParser" = Some (ArgParserClass get_args) ∧
     get_args [] = Ok kge) ∧
  (∃ new_config new_model,
     ccls = ConfigClass new_config ∧ mcls = ModelClass new_model ∧
     new_config (<["dataset_name" := VScalar (SStr (dataset_name a))]> kge)
     = Ok cfg ∧
     new_model cfg = Ok m) ∧
  Trainer_new env m (debug a) true = Ok t.

(** The object a successful construction leaves. *)
Definition constructed a (g : KG) (h : HyperParams)
  (mcls ccls : pyobj ModelState) (t : Trainer ModelState TrainerState)
  (o : BaysOptimizer KG ModelState TrainerState)
  : BaysOptimizer KG ModelState TrainerState :=
  {| args := Some a; knowledge_graph := Some g; model_obj := Some mcls;
     config_obj := Some ccls; trainer := Some t;
     search_space := Some (hp_search_space h);
     max_evals := Some (if debug a then 1 else max_number_trials a);
     best_result := best_result o |}.

End Vocabulary.

(** ** A small world to run the program in

    One model ([TransE]) is installed; its configuration class adds an
    empty [hyperparameters] dict, a [result] directory and a number of
    epochs to the parsed arguments; the model keeps its configuration; the
    trainer shares the model's configuration and counts its training runs;
    the loss depends on the sampled [L1_flag]; the suggestion algorithm
    alternates between the two flags. *)

Definition demo_space : search_space_t :=
  [("learning_rate", hp_uniform (1 # 1000) (1 # 10));
   ("L1_flag", hp_choice [SBool true; SBool false]);
   ("epochs", hp_choice [SInt 10])].

Definition demo_params : HyperParams := {| hp_search_space := demo_space |}.

Definition demo_new_config (kge_args : obj_dict) : res obj_dict :=
  Ok (<["hyperparameters" := VDict ∅]>
      (<["result" := VPath ["results"]]>
       (<["epochs" := VScalar (SInt 100)]> kge_args))).

Definition demo_new_model (cfg : obj_dict) : res (Model obj_dict) :=
  Ok {| model_name := "TransE"; model_state := cfg |}.

Definition demo_model_module : py_module obj_dict :=
  λ attr, if String.eqb attr "TransE"
          then Some (ModelClass demo_new_model) else None.

Definition demo_config_module : py_module obj_dict :=
  λ attr, if String.eqb attr "TransEConfig"
          then Some (ConfigClass demo_new_config)
          else if String.eqb attr "KGEArgParser"
          then Some (ArgParserClass (λ _, Ok ∅))
          else None.

Definition demo_params_module : py_module obj_dict :=
  λ attr, if String.eqb attr "TransEParams"
          then Some (ParamsClass (Ok demo_params)) else None.

Definition demo_import (name : string) : res (py_module obj_dict) :=
  if String.eqb name "pykg2vec.core.TransE" then Ok demo_model_module
  else if String.eqb name config_path then Ok demo_config_module
  else if String.eqb name hyper_param_path then Ok demo_params_module
  else Raise (ModuleNotFoundError name).

Definition demo_loss (cfg : obj_dict) : float :=
  match cfg !! "L1_flag" with
  | Some (VScalar (SBool true)) => 1 # 2
  | _ => 1 # 4
  end.

Definition demo_suggest (space : search_space_t) (trials : list Trial)
  : gmap string (list scalar) :=
  <["learning_rate" := [SFloat (1 # 100)]]>
  (<["L1_flag" := [SInt (if Nat.even (length trials) then 0 else 1)]]>
   (<["epochs" := [SInt 0]]> ∅)).

Definition demo_new_trainer (m : Model obj_dict) : Trainer obj_dict nat :=
  {| config := model_state m; trainer_model := m; trainer_state := 0%nat |}.

Definition demo_tune_model (t : Trainer obj_dict nat)
  : res float * Trainer obj_dict nat :=
  (Ok (demo_loss (config t)),
   {| config := config t; trainer_model := trainer_model t;
      trainer_state := S (trainer_state t) |}).

Definition demo_env : Env unit obj_dict nat :=
  {| KnowledgeGraph := λ _ _, Ok tt;
     import_module := demo_import;
     Trainer_new := λ m _ _, Ok (demo_new_trainer m);
     build_model := λ t, (Ok tt, t);
     summary_hyperparameter := λ t, (Ok tt, t);
     tune_model := demo_tune_model;
     tpe_suggest := demo_suggest |}.

Definition demo_args (name : string) (dbg : bool) : Args :=
  {| model := name; dataset_name := "Freebase15k"; dataset_path := None;
     debug := dbg; max_number_trials := 3 |}.

Definition demo_state : state unit obj_dict nat := initial_state.

(** What the demo's argument parser and classes make for [demo_args]. *)
Definition demo_kge_args : obj_dict :=
  <["dataset_name" := VScalar (SStr "Freebase15k")]> ∅.

Definition demo_config : obj_dict :=
  <["hyperparameters" := VDict ∅]>
  (<["result" := VPath ["results"]]>
   (<["epochs" := VScalar (SInt 100)]> demo_kge_args)).

Definition demo_model : Model obj_dict :=
  {| model_name := "TransE"; model_state := demo_config |}.

Definition demo_trainer : Trainer obj_dict nat := demo_new_trainer demo_model.

(** The object after construction for [transe], and after a search. *)
Definition demo_constructed (dbg : bool) : state unit obj_dict nat :=
  (__init__ demo_env (Some (demo_args "transe" dbg)) demo_state).2.

Definition demo_optimized (dbg : bool) : state unit obj_dict nat :=
  (optimize demo_env (demo_constructed dbg)).2.

(** A point of [demo_space], decoded. *)
Definition demo_point : gmap string scalar :=
  <["learning_rate" := SFloat (1 # 100)]>
  (<["L1_flag" := SBool true]> (<["epochs" := SInt 10]> ∅)).

(** The configuration of a trial at [demo_point], and the trainer built
    with it. *)
Definition demo_trial_config : obj_dict :=
  tuning_config false demo_point demo_config ∅.

Definition demo_built : Trainer obj_dict nat :=
  with_config demo_trainer demo_trial_config.

(** A second point of [demo_space], decoded, and a sampled point with an
    entry named [hyperparameters]. *)
Definition demo_point2 : gmap string scalar :=
  <["L1_flag" := SBool false]> demo_point.

Definition demo_bad_point : gmap string scalar :=
  <["hyperparameters" := SInt 1]> ∅.

(** The same world with a trainer whose training fails. *)
Definition demo_training_error : exn :=
  OtherError "RuntimeError" "training failed".

Definition demo_env_failing : Env unit obj_dict nat :=
  {| KnowledgeGraph := λ _ _, Ok tt;
     import_module := demo_import;
     Trainer_new := λ m _ _, Ok (demo_new_trainer m);
     build_model := λ t, (Ok tt, t);
     summary_hyperparameter := λ t, (Ok tt, t);
     tune_model := λ t, (Raise demo_training_error, t);
     tpe_suggest := demo_suggest |}.




(** * Properties *)

(** ** Dictionaries and names *)

Lemma odict_get_None {V} (d : odict V) (k : string) :
  odict_get d k = None ↔ k ∉ odict_keys d.
Proof.
  induction d as [|[k' v] d IH]; simpl.
  - split; [intros _; apply not_elem_of_nil | done].
  - destruct (String.eqb_spec k' k) as [->|Hne].
    + split; [done | intros H; exfalso; apply H; left].
    + rewrite IH, not_elem_of_cons. intuition congruence.
Qed.

Lemma odict_get_is_Some {V} (d : odict V) (k : string) :
  k ∈ odict_keys d → is_Some (odict_get d k).
Proof.
  intros Hin. destruct (odict_get d k) eqn:E; [eauto|].
  apply odict_get_None in E. done.
Qed.

Lemma configMap_keys : odict_keys configMap = odict_keys modelMap.
Proof. reflexivity. Qed.

Lemma hypMap_keys : odict_keys hypMap = odict_keys modelMap.
Proof. reflexivity. Qed.

(** The keys of [modelMap] are in lower case already. *)
Lemma modelMap_keys_lower (k : string) :
  k ∈ odict_keys modelMap → lower k = k.
Proof.
  intros H. apply list_elem_of_In in H. simpl in H.
  repeat (destruct H as [<-|H]; [reflexivity|]). destruct H.
Qed.

Local Arguments odict_get : simpl never.
Local Arguments lower : simpl never.
Local Arguments String.append : simpl never.
Local Arguments join : simpl never.

Section Properties.

Context {KG ModelState TrainerState : Type}.
Variable env : Env KG ModelState TrainerState.

Implicit Types (st : state KG ModelState TrainerState) (a : Args).

(** ** Reasoning about runs *)

Lemma bind_Ok {A B} (m : M KG ModelState TrainerState A)
  (k : A → M KG ModelState TrainerState B) st b st' :
  bind m k st = (Ok b, st') →
  ∃ x st1, m st = (Ok x, st1) ∧ k x st1 = (Ok b, st').
Proof.
  unfold bind. destruct (m st) as [[x|e] st1]; [eauto | discriminate].
Qed.

Lemma lift_Ok {A} (r : res A) st (x : A) st' :
  lift r st = (Ok x, st') → r = Ok x ∧ st' = st.
Proof. unfold lift. by intros [= -> ->]. Qed.

Lemma read_Ok {A} attr (f : BaysOptimizer KG ModelState TrainerState → option A)
  st (x : A) st' :
  read attr f st = (Ok x, st') → f (self st) = Some x ∧ st' = st.
Proof.
  unfold read. destruct (f (self st)); [by intros [= -> ->] | discriminate].
Qed.


#[local] Instance same_preorder {B}
  (f : BaysOptimizer KG ModelState TrainerState → B) : PreOrder (same f).
Proof.
  split; [by intros st | intros st1 st2 st3 H1 H2].
  unfold same in *. congruence.
Qed.

#[local] Instance log_extends_preorder :
  PreOrder (@log_extends KG ModelState TrainerState).
Proof.
  split; [intros st; unfold log_extends; reflexivity
         | intros st1 st2 st3 H1 H2].
  unfold log_extends in *. by etrans.
Qed.

Section Steps.

Context (R : relation (state KG ModelState TrainerState)) `{!PreOrder R}.

Lemma steps_ret {A} (x : A) : steps R (ret x).
Proof. intros st. simpl. reflexivity. Qed.

Lemma steps_raise {A} e : steps R (raise (A := A) e).
Proof. intros st. simpl. reflexivity. Qed.

Lemma steps_lift {A} (r : res A) : steps R (lift r).
Proof. intros st. simpl. reflexivity. Qed.

Lemma steps_read {A} attr
  (f : BaysOptimizer KG ModelState TrainerState → option A) :
  steps R (read attr f).
Proof. intros st. unfold read. destruct (f (self st)); simpl; reflexivity. Qed.

Lemma steps_bind {A B} (m : M KG ModelState TrainerState A)
  (k : A → M KG ModelState TrainerState B) :
  steps R m → (∀ x, steps R (k x)) → steps R (bind m k).
Proof.
  intros Hm Hk st. unfold bind. specialize (Hm st).
  destruct (m st) as [[x|e] st1]; [|done].
  etrans; [exact Hm | apply Hk].
Qed.

Lemma steps_try_except {A} (body handler : M KG ModelState TrainerState A)
  catches :
  steps R body → steps R handler → steps R (try_except body catches handler).
Proof.
  intros Hb Hh st. unfold try_except. specialize (Hb st).
  destruct (body st) as [[x|e] st1]; [done|].
  destruct (catches e); [|done]. etrans; [exact Hb | apply Hh].
Qed.

Lemma steps_for_each {A} (l : list A)
  (body : A → M KG ModelState TrainerState unit) :
  (∀ x, steps R (body x)) → steps R (for_each l body).
Proof.
  intros Hb. induction l as [|x l IH]; simpl.
  - apply steps_ret.
  - apply steps_bind; [apply Hb | intros _; apply IH].
Qed.

Lemma steps_emit e : allows_emit R → steps R (emit e).
Proof. intros H st. apply H. Qed.

Lemma steps_update f : allows_update R f → steps R (update f).
Proof. intros H st. apply H. Qed.

Lemma steps_call_trainer {A} ev
  (method : Trainer ModelState TrainerState
            → res A * Trainer ModelState TrainerState) :
  allows_emit R → (∀ t, allows_update R (set_trainer t)) →
  steps R (call_trainer ev method).
Proof.
  intros He Hu. unfold call_trainer.
  apply steps_bind; [apply steps_read | intros t].
  apply steps_bind; [by apply steps_emit | intros _].
  intros st. destruct (method t) as [r t']. apply Hu.
Qed.

End Steps.

Lemma same_allows_emit {B}
  (f : BaysOptimizer KG ModelState TrainerState → B) : allows_emit (same f).
Proof. intros st e. unfold same. reflexivity. Qed.

Lemma log_allows_emit : allows_emit (@log_extends KG ModelState TrainerState).
Proof. intros st e. unfold log_extends. by apply prefix_app_r. Qed.

Lemma log_allows_update f :
  allows_update (@log_extends KG ModelState TrainerState) f.
Proof. intros st. unfold log_extends. reflexivity. Qed.

Ltac solve_steps :=
  repeat match goal with
    | |- PreOrder _ => exact _
    | |- allows_emit _ => solve [auto]
    | |- allows_update _ _ => solve [auto]
    | |- ∀ _, _ => intros ?
    | |- steps _ (ret _) => apply steps_ret
    | |- steps _ (raise _) => apply steps_raise
    | |- steps _ (lift _) => apply steps_lift
    | |- steps _ (read _ _) => apply steps_read
    | |- steps _ (emit _) => apply steps_emit
    | |- steps _ (update _) => apply steps_update
    | |- steps _ (call_trainer _ _) => apply steps_call_trainer
    | |- steps _ (bind _ _) => apply steps_bind
    | |- steps _ (try_except _ _ _) => apply steps_try_except
    | |- steps _ (for_each _ _) => apply steps_for_each
    | |- steps _ (if ?b then _ else _) => destruct b
    | |- steps _ (match ?x with _ => _ end) => destruct x
    | |- steps _ _ => solve [auto]
    end.

(** The parts of the constructor and the objective move the state along
    any relation that allows their effects. *)
Lemma try_resolve_steps R `{!PreOrder R} name :
  allows_emit R →
  (∀ c, allows_update R (set_model_obj c)) →
  (∀ c, allows_update R (set_config_obj c)) →
  steps R (try_resolve env name).
Proof.
  intros He Hm Hc.
  unfold try_resolve, resolve_classes, do_import, call_ParamsClass.
  solve_steps.
Qed.

Lemma bind_trainer_steps R `{!PreOrder R} a hp :
  allows_emit R →
  (∀ t, allows_update R (set_trainer t)) →
  (∀ s, allows_update R (set_search_space s)) →
  (∀ n, allows_update R (set_max_evals n)) →
  steps R (bind_trainer env a hp).
Proof.
  intros He Ht Hs Hn.
  unfold bind_trainer, import_from, do_import, call_get_args,
    call_ConfigClass, call_ModelClass, call_Trainer.
  solve_steps.
Qed.

Lemma get_loss_steps R `{!PreOrder R} params :
  allows_emit R →
  (∀ t, allows_update R (set_trainer t)) →
  steps R (get_loss env params).
Proof.
  intros He Ht.
  unfold get_loss, set_config_attr, set_config_hyperparameter.
  solve_steps.
Qed.

(** Inversion of a run that returned, one [bind] at a time. *)
Ltac inv_bind H :=
  let x := fresh "x" in
  let s := fresh "s" in
  let H1 := fresh "H" in
  apply bind_Ok in H as (x & s & H1 & H);
  first
    [ apply lift_Ok in H1 as [H1 ->]
    | apply read_Ok in H1 as [H1 ->]
    | unfold update in H1; injection H1 as <- <-
    | unfold emit in H1; injection H1 as <- <-
    | unfold ret in H1; injection H1 as <- <-
    | idtac ];
  cbn [self log] in *.

Lemma import_from_self module name st :
  self (import_from env module name st).2 = self st.
Proof.
  assert (steps (same (λ o, o)) (import_from env module name)) as H.
  { unfold import_from, do_import.
    pose proof (same_allows_emit (B := BaysOptimizer KG ModelState TrainerState)
                  (λ o, o)).
    solve_steps. }
  apply H.
Qed.

Lemma bind_trainer_Ok a hp st st' :
  bind_trainer env a hp st = (Ok tt, st') →
  ∃ h t a',
    hp = Some h ∧ args (self st) = Some a' ∧
    self st'
    = set_max_evals (if debug a' then 1 else max_number_trials a')
        (set_search_space (hp_search_space h) (set_trainer t (self st))) ∧
    log st `prefix_of` log st'.
Proof.
  intros H.
  assert (Hlog : log st `prefix_of` log st').
  { pose proof (bind_trainer_steps log_extends a hp log_allows_emit
      (λ _, log_allows_update _) (λ _, log_allows_update _)
      (λ _, log_allows_update _) st) as Hs.
    by rewrite H in Hs. }
  unfold bind_trainer, import_from, call_get_args, call_ConfigClass,
    call_ModelClass, call_Trainer in H.
  repeat inv_bind H.
  destruct hp as [h|]; [|discriminate]. injection H9 as <-.
  pose proof (import_from_self config_path "KGEArgParser" st) as Hs.
  unfold import_from in Hs. rewrite H0 in Hs. cbn in Hs, H11.
  rewrite Hs in *. assert (x10 = x5) as -> by congruence.
  exists h, x6, x5. split; [done|]. split; [done|]. split; [|done].
  destruct (debug x5); cbn in H.
  - unfold update in H. by injection H as <-.
  - inv_bind H. unfold update in H. injection H as <-.
    cbn in *. by simplify_eq.
Qed.

Lemma bind_trainer_None a st :
  ∃ e st', bind_trainer env a None st = (Raise e, st').
Proof.
  destruct (bind_trainer env a None st) as [[[]|e] st'] eqn:H; [|eauto].
  apply bind_trainer_Ok in H as (h & ? & ? & [=] & _).
Qed.

(** With no configuration class bound, the block stops before it binds a
    trainer; if the argument parser does its part, it stops at the read of
    [self.config_obj]. *)
Lemma bind_trainer_unbound a hp st :
  config_obj (self st) = None →
  trainer (self (bind_trainer env a hp st).2) = trainer (self st) ∧
  ∀ cm get_args kge,
    import_module env config_path = Ok cm →
    cm "KGEArgParser" = Some (ArgParserClass get_args) →
    get_args [] = Ok kge →
    (bind_trainer env a hp st).1
    = Raise (AttributeError "BaysOptimizer" "config_obj").
Proof.
  intros Hc.
  unfold bind_trainer, import_from, do_import, call_get_args, bind, lift,
    emit, read, ret, raise.
  cbn. destruct (import_module env config_path) as [cm|e]; cbn;
    [|by split; [|intros ??? [=]]].
  destruct (cm "KGEArgParser") as [o|] eqn:Ho; cbn;
    [|by split; [|intros ??? [= <-]; congruence]].
  destruct (match o with ArgParserClass f => f [] | _ => not_callable end)
    as [kge|e] eqn:Hg; cbn.
  - rewrite Hc. by split.
  - split; [done|]. intros ??? [= <-] Hp Hk. rewrite Ho in Hp.
    injection Hp as ->. congruence.
Qed.

Lemma init_Ok a st st' :
  __init__ env (Some a) st = (Ok tt, st') →
  args (self st') = Some a ∧
  max_evals (self st') = Some (if debug a then 1 else max_number_trials a) ∧
  is_Some (search_space (self st')) ∧
  is_Some (trainer (self st')) ∧
  best_result (self st') = best_result (self st) ∧
  log st `prefix_of` log st'.
Proof.
  intros H. unfold __init__ in H. unfold bind at 1 in H. cbn [lift] in H.
  case_bool_decide; [discriminate|]. cbv zeta in H.
  do 5 inv_bind H.
  match goal with Ht : try_resolve _ _ ?s0 = _ |- _ =>
    rename Ht into Htry;
    pose proof (try_resolve_steps (same args) (lower (model a))
      (same_allows_emit _) (λ _ _, eq_refl) (λ _ _, eq_refl) s0) as Hargs;
    pose proof (try_resolve_steps (same best_result) (lower (model a))
      (same_allows_emit _) (λ _ _, eq_refl) (λ _ _, eq_refl) s0) as Hbest;
    pose proof (try_resolve_steps log_extends (lower (model a))
      log_allows_emit (λ _, log_allows_update _)
      (λ _, log_allows_update _) s0) as Hlog
  end.
  rewrite Htry in Hargs, Hbest, Hlog. unfold same, log_extends in *.
  cbn in Hargs, Hbest, Hlog.
  apply bind_trainer_Ok in H as (h & t & a' & -> & Ha & Hself & Hlog').
  rewrite Hself. cbn. assert (a' = a) as -> by congruence.
  repeat split; eauto.
  etrans; [|exact Hlog']. etrans; [|exact Hlog]. by apply prefix_app_r.
Qed.

Lemma bind_update {B} f (k : unit → M KG ModelState TrainerState B) st :
  bind (update f) k st = k tt {| self := f (self st); log := log st |}.
Proof. reflexivity. Qed.

Lemma bind_emit {B} e (k : unit → M KG ModelState TrainerState B) st :
  bind (emit e) k st = k tt {| self := self st; log := log st ++ [e] |}.
Proof. reflexivity. Qed.

Lemma bind_lift_Ok {A B} (r : res A) (k : A → M KG ModelState TrainerState B)
  st x :
  r = Ok x → bind (lift r) k st = k x st.
Proof. by intros ->. Qed.

Lemma bind_read_Some {A B} attr
  (f : BaysOptimizer KG ModelState TrainerState → option A)
  (k : A → M KG ModelState TrainerState B) st x :
  f (self st) = Some x → bind (read attr f) k st = k x st.
Proof. intros H. unfold bind, read. by rewrite H. Qed.

Lemma bind_eq {A B} (m : M KG ModelState TrainerState A)
  (k : A → M KG ModelState TrainerState B) st x st1 :
  m st = (Ok x, st1) → bind m k st = k x st1.
Proof. intros H. unfold bind. by rewrite H. Qed.

Lemma bind_eq_Raise {A B} (m : M KG ModelState TrainerState A)
  (k : A → M KG ModelState TrainerState B) st e st1 :
  m st = (Raise e, st1) → bind m k st = (Raise e, st1).
Proof. intros H. unfold bind. by rewrite H. Qed.

(** The constructor, up to the [try] statement. *)
Lemma init_enters_try a g st :
  lower (model a) ∉ unsupported →
  KnowledgeGraph env (dataset_name a) (dataset_path a) = Ok g →
  __init__ env (Some a) st
  = bind (try_resolve env (lower (model a))) (bind_trainer env a)
      (entered_try a g st).
Proof.
  intros Hdeny Hkg. unfold __init__. unfold bind at 1. cbn [lift].
  rewrite bool_decide_false by done. cbv zeta.
  by rewrite bind_update, bind_emit, (bind_lift_Ok _ _ _ _ Hkg), bind_update.
Qed.

(** The handler takes an unresolvable module, prints, and leaves the local
    [hyper_params] at [None]. *)
Lemma try_resolve_caught name mname st st1 :
  resolve_classes env name st = (Raise (ModuleNotFoundError mname), st1) →
  try_resolve env name st
  = (Ok None,
     {| self := self st1;
        log := log st1 ++ [ev_print (not_implemented_message name)] |}).
Proof.
  intros H. unfold try_resolve, try_except.
  by rewrite (bind_eq_Raise _ _ _ _ _ H).
Qed.

(** When it is the model's module that does not resolve, the [try] block
    stops at its first import. *)
Lemma resolve_classes_no_model_module name n mname st :
  odict_get modelMap name = Some n →
  import_module env (model_path +:+ "." +:+ n)
  = Raise (ModuleNotFoundError mname) →
  resolve_classes env name st
  = (Raise (ModuleNotFoundError mname),
     {| self := self st;
        log := log st ++ [ev_import_module (model_path +:+ "." +:+ n)] |}).
Proof.
  intros Hn Hi. unfold resolve_classes, getitem, do_import.
  rewrite (bind_lift_Ok _ _ _ n) by (by rewrite Hn).
  unfold bind at 1. unfold bind at 1. cbn. by rewrite Hi.
Qed.

(** ** Construction *)



(** C3: for a name that is a key of [modelMap] and is not denylisted, and
    collaborators that do their part, the constructor returns; the object
    it leaves has its trainer bound to the trainer built, during this very
    construction (see the log), from the model instance that the resolved
    model class made of the fresh configuration. *)
Theorem init_supported_succeeds a g h mcls ccls kge cfg m t st :
  model a ∈ odict_keys modelMap →
  lower (model a) ∉ unsupported →
  collaborators_ok env a g h mcls ccls kge cfg m t →
  __init__ env (Some a) st
  = (Ok tt,
     {| self := constructed a g h mcls ccls t (self st);
        log := log st ++
          [ev_KnowledgeGraph (dataset_name a) (dataset_path a);
           ev_import_module
             (model_path +:+ "." +:+
              default "" (odict_get modelMap (model a)));
           ev_import_module config_path;
           ev_import_module hyper_param_path;
           ev_new_params;
           ev_import_module config_path;
           ev_get_args;
           ev_new_config
             (<["dataset_name" := VScalar (SStr (dataset_name a))]> kge);
           ev_new_model cfg;
           ev_new_Trainer (debug a) true] |}).
Proof.
  intros Hkey Hdeny (Hkg & (mm & cm & hm & ga & Hm & Hcm & Hc & Hhm & Hh & Hp & Hga)
                     & (nc & nm & -> & -> & Hnc & Hnm) & Htr).
  cbv zeta in Hm, Hc, Hh. 
  rewrite (modelMap_keys_lower _ Hkey) in *.
  destruct (odict_get_is_Some modelMap (model a)) as [n1 Hn1]; [done|].
  destruct (odict_get_is_Some configMap (model a)) as [n2 Hn2];
    [by rewrite configMap_keys|].
  destruct (odict_get_is_Some hypMap (model a)) as [n3 Hn3];
    [by rewrite hypMap_keys|].
  destruct (Hm _ Hn1) as [Him Hattr].
  specialize (Hc _ Hn2). specialize (Hh _ Hn3).
  unfold __init__. unfold bind at 1. cbn [lift]. cbv zeta.
  rewrite !(modelMap_keys_lower _ Hkey), bool_decide_false by done.
  unfold bind_trainer, try_resolve.
  unfold try_except, resolve_classes, import_from, do_import, call_ParamsClass,
    call_get_args, call_ConfigClass, call_ModelClass, call_Trainer,
    bind, lift, update, emit, read, getitem, getattr, ret.
  cbn. rewrite Hkg, Hn1. cbn. rewrite Him. rewrite Hattr. cbn.
  rewrite Hcm, Hn2. cbn. rewrite Hc. rewrite Hhm, Hn3. cbn. rewrite Hh, Hp. cbn.
  rewrite Hga. cbn. rewrite Hnc, Hnm. cbn. rewrite Htr. cbn.
  rewrite <- !app_assoc. unfold constructed.
  destruct (debug a); cbn; reflexivity.
Qed.

(** C2, as the code has it: when a module needed for the classes does not
    resolve, the handler takes the failure and prints the message that
    lists the names, and the constructor goes on past the handler; it then
    raises all the same, so construction does not complete.  When the
    module that does not resolve is the model's, no model class and no
    trainer are bound by then, and, the argument parser doing its part, the
    exception is the [AttributeError] of the read of [self.config_obj]
    (line 126). *)
Theorem init_unresolvable_module_raises a g mname :
  lower (model a) ∉ unsupported →
  KnowledgeGraph env (dataset_name a) (dataset_path a) = Ok g →
  (resolve_classes env (lower (model a)) (entered_try a g initial_state)).1
  = Raise (ModuleNotFoundError mname) →
  ∃ e st',
    __init__ env (Some a) initial_state = (Raise e, st') ∧
    ev_print (not_implemented_message (lower (model a))) ∈ log st' ∧
    ∀ n mname',
      odict_get modelMap (lower (model a)) = Some n →
      import_module env (model_path +:+ "." +:+ n)
      = Raise (ModuleNotFoundError mname') →
      model_obj (self st') = None ∧ trainer (self st') = None ∧
      ∀ cm get_args kge,
        import_module env config_path = Ok cm →
        cm "KGEArgParser" = Some (ArgParserClass get_args) →
        get_args [] = Ok kge →
        e = AttributeError "BaysOptimizer" "config_obj".
Proof.
  intros Hdeny Hkg Hres. rewrite (init_enters_try a g) by done.
  destruct (resolve_classes env (lower (model a))
              (entered_try a g initial_state)) as [r1 st1] eqn:E.
  cbn in Hres. subst r1.
  rewrite (bind_eq _ _ _ _ _ (try_resolve_caught _ _ _ _ E)).
  set (st2 := {| self := self st1; log := _ |}).
  destruct (bind_trainer_None a st2) as (e & st' & Hbt).
  exists e, st'. split; [done|].
  pose proof (bind_trainer_steps log_extends a None log_allows_emit
    (λ _, log_allows_update _) (λ _, log_allows_update _)
    (λ _, log_allows_update _) st2) as Hlog.
  pose proof (bind_trainer_steps (same model_obj) a None (same_allows_emit _)
    (λ _ _, eq_refl) (λ _ _, eq_refl) (λ _ _, eq_refl) st2) as Hmodel.
  rewrite Hbt in Hlog, Hmodel. unfold log_extends, same in *.
  cbn in Hlog, Hmodel. split.
  - destruct Hlog as [l ->]. rewrite !elem_of_app, list_elem_of_singleton.
    by left; right.
  - intros n mname' Hn Hi.
    rewrite (resolve_classes_no_model_module _ _ _ _ Hn Hi) in E.
    injection E as _ <-. cbn in Hmodel.
    destruct (bind_trainer_unbound a None st2) as [Htr He]; [done|].
    rewrite Hbt in Htr, He. cbn in Htr, He. repeat split; [done..|].
    intros cm ga kge H1 H2 H3. specialize (He cm ga kge H1 H2 H3).
    by injection He.
Qed.

(** ** Before the search *)

(** C10: asked for the best point on an object that was constructed and
    has not run [optimize], [return_best] raises [AttributeError] for
    [best_result]: the constructor does not bind that attribute, and
    neither does the objective. *)
Theorem return_best_before_optimize a st :
  __init__ env (Some a) initial_state = (Ok tt, st) →
  return_best st = (Raise (AttributeError "BaysOptimizer" "best_result"), st)
  ∧ ∀ params,
      let st' := (get_loss env params st).2 in
      return_best st'
      = (Raise (AttributeError "BaysOptimizer" "best_result"), st').
Proof.
  intros H. apply init_Ok in H as (_ & _ & [s Hs] & _ & Hb & _).
  cbn in Hb. split.
  - unfold return_best. rewrite (bind_read_Some _ _ _ _ _ Hs).
    unfold bind, read. by rewrite Hb.
  - intros params st'.
    pose proof (get_loss_steps (same search_space) params
      (same_allows_emit _) (λ _ _, eq_refl) st) as H1.
    pose proof (get_loss_steps (same best_result) params
      (same_allows_emit _) (λ _ _, eq_refl) st) as H2.
    unfold same in *. fold st' in H1, H2. rewrite Hs in H1. rewrite Hb in H2.
    unfold return_best. rewrite (bind_read_Some _ _ _ _ _ H1).
    unfold bind, read. by rewrite H2.
Qed.

(** ** The objective *)

Lemma copy_step_eq (M d : gmap string scalar) (c : obj_dict) k v :
  M !! k = None → k ≠ "hyperparameters" →
  copied_config M
    (<["hyperparameters" := VDict (<[k:=v]> d)]> (<[k:=VScalar v]> c))
    (<[k:=v]> d)
  = copied_config (<[k:=v]> M) c d.
Proof.
  intros HM Hk. unfold copied_config.
  rewrite <- insert_union_l, <- (insert_union_r M) by done.
  apply map_eq. intros i.
  destruct (decide (i = "hyperparameters")) as [->|Hi].
  { by rewrite !lookup_insert_eq. }
  rewrite !lookup_insert_ne by done.
  rewrite !lookup_union, !lookup_fmap.
  destruct (decide (i = k)) as [->|Hik].
  - rewrite HM, lookup_insert_eq. cbn. rewrite lookup_insert_ne by done.
    rewrite lookup_insert_eq. by destruct (c !! k).
  - by rewrite !lookup_insert_ne by done.
Qed.

Lemma set_config_attr_run k v t st :
  trainer (self st) = Some t →
  set_config_attr k v st
  = (Ok tt,
     {| self := set_trainer (with_config t (<[k:=VScalar v]> (config t)))
                 (self st);
        log := log st |}).
Proof.
  intros Ht. unfold set_config_attr.
  by rewrite (bind_read_Some _ _ _ _ _ Ht).
Qed.

Lemma set_config_hyperparameter_run k v t d st :
  trainer (self st) = Some t →
  config t !! "hyperparameters" = Some (VDict d) →
  set_config_hyperparameter k v st
  = (Ok tt,
     {| self :=
          set_trainer
            (with_config t
               (<["hyperparameters" := VDict (<[k:=v]> d)]> (config t)))
            (self st);
        log := log st |}).
Proof.
  intros Ht Hd. unfold set_config_hyperparameter, setitem_hyperparameters.
  rewrite (bind_read_Some _ _ _ _ _ Ht), Hd.
  by rewrite (bind_lift_Ok _ _ _ _ eq_refl).
Qed.

(** The loop over [params.items()], on any list of distinct keys. *)
Lemma copy_params_run (l : list (string * scalar)) :
  ∀ t d st,
    NoDup l.*1 → "hyperparameters" ∉ l.*1 →
    trainer (self st) = Some t →
    config t !! "hyperparameters" = Some (VDict d) →
    for_each l (λ kv,
      bind (set_config_attr kv.1 kv.2)
        (λ _, set_config_hyperparameter kv.1 kv.2)) st
    = (Ok tt,
       {| self :=
            set_trainer
              (with_config t (copied_config (list_to_map l) (config t) d))
              (self st);
          log := log st |}).
Proof.
  induction l as [|[k v] l IH]; intros t d st Hnd Hhp Ht Hd.
  - cbn. unfold ret, copied_config. f_equal.
    rewrite (left_id_L ∅ (∪)), fmap_empty, (left_id_L ∅ (∪)).
    rewrite insert_id by done.
    destruct st as [o lg], o, t. cbn in *. by rewrite Ht.
  - cbn [for_each fmap list_fmap fst snd] in *.
    apply NoDup_cons in Hnd as [Hk Hnd].
    apply not_elem_of_cons in Hhp as [Hne Hhp].
    rewrite bind_eq with (x := tt)
      (st1 := {| self :=
                   set_trainer
                     (with_config t
                        (<["hyperparameters" := VDict (<[k:=v]> d)]>
                           (<[k:=VScalar v]> (config t))))
                     (self st);
                 log := log st |}).
    + erewrite (IH _ (<[k:=v]> d)); [| done | done | cbn; reflexivity |].
      * cbn. rewrite copy_step_eq; [done | | done].
        by apply not_elem_of_list_to_map_1.
      * cbn. by rewrite lookup_insert_eq.
    + cbn [fst snd].
      rewrite (bind_eq _ _ _ _ _ (set_config_attr_run k v t st Ht)).
      rewrite (set_config_hyperparameter_run k v
                 (with_config t (<[k:=VScalar v]> (config t))) d);
        [done | done |].
      cbn. by rewrite lookup_insert_ne.
Qed.

Lemma call_trainer_run {A} ev
  (method : Trainer ModelState TrainerState
            → res A * Trainer ModelState TrainerState) t st :
  trainer (self st) = Some t →
  call_trainer ev method st
  = ((method t).1,
     {| self := set_trainer (method t).2 (self st);
        log := log st ++ [ev t] |}).
Proof.
  intros Ht. unfold call_trainer.
  rewrite (bind_read_Some _ _ _ _ _ Ht), bind_emit.
  by destruct (method t).
Qed.

Lemma with_config_idem (t : Trainer ModelState TrainerState) c c' :
  with_config (with_config t c) c' = with_config t c'.
Proof. reflexivity. Qed.

Lemma config_with_config (t : Trainer ModelState TrainerState) c :
  config (with_config t c) = c.
Proof. reflexivity. Qed.

Lemma bind_set_config_attr {B} k v t o lg
  (K : unit → M KG ModelState TrainerState B) :
  bind (set_config_attr k v) K {| self := set_trainer t o; log := lg |}
  = K tt {| self := set_trainer (with_config t (<[k:=VScalar v]> (config t))) o;
            log := lg |}.
Proof. reflexivity. Qed.

(** The objective up to its calls into the trainer: the configuration is
    the trial's. *)
Lemma get_loss_configures params a t d st :
  args (self st) = Some a →
  trainer (self st) = Some t →
  config t !! "hyperparameters" = Some (VDict d) →
  params !! "hyperparameters" = None →
  ∀ {B} (k : unit → M KG ModelState TrainerState B),
    bind (for_each (map_to_list params) (λ kv,
            bind (set_config_attr kv.1 kv.2)
              (λ _, set_config_hyperparameter kv.1 kv.2)))
      (λ _, bind (set_config_attr "disp_result" (SBool false))
      (λ _, bind (set_config_attr "disp_summary" (SBool false))
      (λ _, bind (set_config_attr "save_model" (SBool false))
      (λ _, bind (set_config_attr "test_num" (SInt 1000))
      (λ _, bind (read "args" args)
      (λ a, bind (if debug a
                  then bind (set_config_attr "epochs" (SInt 1))
                         (λ _, set_config_hyperparameter "epochs" (SInt 1))
                  else ret tt) k)))))) st
    = k tt {| self :=
                set_trainer
                  (with_config t
                     (tuning_config (debug a) params (config t) d))
                  (self st);
              log := log st |}.
Proof.
  intros Ha Ht Hd Hp B k.
  assert ("hyperparameters" ∉ (map_to_list params).*1) as Hnot.
  { intros ([k' v] & Heq & Hin)%list_elem_of_fmap.
    apply elem_of_map_to_list in Hin. cbn in Heq. congruence. }
  rewrite (bind_eq _ _ _ _ _ (copy_params_run (map_to_list params) t d st
             (NoDup_fst_map_to_list _) Hnot Ht Hd)).
  rewrite list_to_map_to_list.
  rewrite !bind_set_config_attr, !with_config_idem, !config_with_config.
  erewrite bind_read_Some by (cbn; exact Ha).
  unfold tuning_config, debug_config, forced_config.
  destruct (debug a).
  - erewrite bind_eq; [done|].
    rewrite bind_set_config_attr, !with_config_idem, !config_with_config.
    erewrite (set_config_hyperparameter_run "epochs" (SInt 1) _ (params ∪ d));
      [ | cbn; reflexivity | ].
    + by rewrite !with_config_idem, !config_with_config.
    + rewrite config_with_config, !lookup_insert_ne by done.
      apply lookup_insert_eq.
  - by rewrite (bind_eq _ _ _ tt _ eq_refl).
Qed.

Lemma call_trainer_Ok {A} ev
  (method : Trainer ModelState TrainerState
            → res A * Trainer ModelState TrainerState) t x t' st :
  trainer (self st) = Some t →
  method t = (Ok x, t') →
  call_trainer ev method st
  = (Ok x, {| self := set_trainer t' (self st); log := log st ++ [ev t] |}).
Proof. intros Ht Hm. by rewrite (call_trainer_run _ _ t), Hm. Qed.



(** ** The search *)

Lemma evaluations_app l1 l2 :
  evaluations (l1 ++ l2) = (evaluations l1 + evaluations l2)%nat.
Proof. unfold evaluations. by rewrite filter_app, length_app. Qed.

Lemma call_trainer_Ok_inv {A} ev
  (method : Trainer ModelState TrainerState
            → res A * Trainer ModelState TrainerState) st x st' :
  call_trainer ev method st = (Ok x, st') →
  ∃ t t', trainer (self st) = Some t ∧ method t = (Ok x, t') ∧
          st' = {| self := set_trainer t' (self st);
                   log := log st ++ [ev t] |}.
Proof.
  intros H. destruct (trainer (self st)) as [t|] eqn:Ht.
  - rewrite (call_trainer_run _ _ t) in H by done.
    destruct (method t) as [r t'] eqn:Hm. cbn in H.
    injection H as -> <-. eauto.
  - unfold call_trainer, bind, read in H. by rewrite Ht in H.
Qed.

#[local] Instance same_log_preorder :
  PreOrder (@same_log KG ModelState TrainerState).
Proof.
  split; [by intros st | intros st1 st2 st3 H1 H2].
  unfold same_log in *. congruence.
Qed.

Lemma same_log_allows_update f :
  allows_update (@same_log KG ModelState TrainerState) f.
Proof. intros st. unfold same_log. reflexivity. Qed.

Lemma set_config_attr_same_log k v :
  steps (@same_log KG ModelState TrainerState) (set_config_attr k v).
Proof.
  unfold set_config_attr. pose proof same_log_allows_update. solve_steps.
Qed.

Lemma set_config_hyperparameter_same_log k v :
  steps (@same_log KG ModelState TrainerState)
    (set_config_hyperparameter k v).
Proof.
  unfold set_config_hyperparameter. pose proof same_log_allows_update.
  solve_steps.
Qed.

(** An evaluation that returns has run the trainer's three methods, once
    each, and reports success. *)
Lemma get_loss_Ok params st r st' :
  get_loss env params st = (Ok r, st') →
  status r = STATUS_OK ∧
  ∃ c, log st' = log st ++ [ev_build_model c; ev_summary_hyperparameter;
                            ev_tune_model].
Proof.
  intros H. unfold get_loss in H.
  pose proof set_config_attr_same_log as Hattr.
  pose proof set_config_hyperparameter_same_log as Hhyp.
  apply bind_Ok in H as (? & s1 & H1 & H).
  assert (log s1 = log st) as L1.
  { assert (steps (@same_log KG ModelState TrainerState)
             (for_each (map_to_list params) (λ kv,
                bind (set_config_attr kv.1 kv.2)
                  (λ _, set_config_hyperparameter kv.1 kv.2)))) as Hs
      by solve_steps.
    specialize (Hs st). by rewrite H1 in Hs. }
  apply bind_Ok in H as (? & s2 & H2 & H).
  pose proof (Hattr "disp_result" (SBool false) s1) as L2. rewrite H2 in L2.
  apply bind_Ok in H as (? & s3 & H3 & H).
  pose proof (Hattr "disp_summary" (SBool false) s2) as L3. rewrite H3 in L3.
  apply bind_Ok in H as (? & s4 & H4 & H).
  pose proof (Hattr "save_model" (SBool false) s3) as L4. rewrite H4 in L4.
  apply bind_Ok in H as (? & s5 & H5 & H).
  pose proof (Hattr "test_num" (SInt 1000) s4) as L5. rewrite H5 in L5.
  apply bind_Ok in H as (a & s6 & [_ ->]%read_Ok & H).
  apply bind_Ok in H as (? & s7 & H7 & H).
  assert (log s7 = log s5) as L7.
  { destruct (debug a).
    - apply bind_Ok in H7 as (? & s & H6 & H7).
      pose proof (Hattr "epochs" (SInt 1) s5) as L6. rewrite H6 in L6.
      pose proof (Hhyp "epochs" (SInt 1) s) as L7. rewrite H7 in L7.
      unfold same_log in *. cbn in *. congruence.
    - by injection H7 as _ <-. }
  apply bind_Ok in H as (? & s8 & (t & t' & _ & _ & ->)%call_trainer_Ok_inv & H).
  apply bind_Ok in H as (? & s9 & (u & u' & _ & _ & ->)%call_trainer_Ok_inv & H).
  apply bind_Ok in H as (? & s10 & (w & w' & _ & _ & ->)%call_trainer_Ok_inv & H).
  injection H as <- <-. split; [done|]. exists (config t).
  unfold same_log in *. cbn in *. rewrite <- !app_assoc. cbn. congruence.
Qed.

Lemma fmin_loop_steps R `{!PreOrder R} :
  allows_emit R → (∀ t, allows_update R (set_trainer t)) →
  ∀ n space trials, steps R (fmin_loop env (get_loss env) space n trials).
Proof.
  intros He Ht n space. induction n as [|n IH]; intros trials; cbn.
  - solve_steps.
  - pose proof (λ params, get_loss_steps R params He Ht). solve_steps.
Qed.

(** A search that returns has run as many evaluations as it was asked for,
    each to its end, and has recorded one trial for each. *)
Lemma fmin_loop_Ok space n :
  ∀ trials st trials' st',
    fmin_loop env (get_loss env) space n trials st = (Ok trials', st') →
    ∃ new configs,
      trials' = trials ++ new ∧ length new = n ∧ length configs = n ∧
      log st' = log st ++ trial_events configs ∧
      Forall (recorded env space) new.
Proof.
  induction n as [|n IH]; intros trials st trials' st' H;
    cbn [fmin_loop] in H; cbv zeta in H.
  - injection H as <- <-. exists [], [].
    cbn [trial_events flat_map]. by rewrite !(right_id_L [] (++)).
  - apply bind_Ok in H as (point & ? & [Hpoint ->]%lift_Ok & H).
    apply bind_Ok in H as (params & ? & [Hparams ->]%lift_Ok & H).
    apply bind_Ok in H as (r & s1 & Hloss & H).
    apply get_loss_Ok in Hloss as (Hstatus & c & Hlog).
    apply IH in H as (new & configs & -> & Hlen & Hlen' & Hlog' & Hrec).
    eexists (_ :: new), (c :: configs). rewrite <- app_assoc.
    split; [done|]. split; [by cbn; rewrite Hlen|].
    split; [by cbn; rewrite Hlen'|]. rewrite Hlog', Hlog, <- app_assoc.
    split; [done|]. constructor; [|done]. split; [done|]. by eexists.
Qed.

Lemma evaluations_trial_events configs :
  evaluations (trial_events configs) = length configs.
Proof.
  induction configs as [|c configs IH]; [done|].
  cbn [trial_events flat_map]. rewrite evaluations_app.
  fold (trial_events configs). by rewrite IH.
Qed.

Lemma best_trial_None trials :
  best_trial trials = None →
  ∀ t, t ∈ trials → status (result t) ≠ STATUS_OK.
Proof.
  induction trials as [|t0 trials IH]; intros H t Ht; [by inversion Ht|].
  cbn in H.
  destruct (String.eqb_spec (status (result t0)) STATUS_OK) as [Hs|Hs].
  - destruct (best_trial trials) as [b|]; [|done].
    by destruct (Qlt_le_dec _ _).
  - apply elem_of_cons in Ht as [->|Ht]; [done | by apply IH].
Qed.

Lemma best_trial_spec trials t :
  best_trial trials = Some t →
  t ∈ trials ∧
  ∀ t', t' ∈ trials → status (result t') = STATUS_OK →
        (loss (result t) <= loss (result t'))%Q.
Proof.
  revert t. induction trials as [|t0 trials IH]; intros t H; [done|].
  cbn in H. destruct (String.eqb_spec (status (result t0)) STATUS_OK) as [Hs|Hs].
  - destruct (best_trial trials) as [b|] eqn:Hb.
    + destruct (IH b eq_refl) as [Hin Hmin].
      destruct (Qlt_le_dec (loss (result b)) (loss (result t0))) as [Hlt|Hle];
        injection H as <-.
      * split; [by right|]. intros t' [->|Ht']%elem_of_cons Hok.
        -- by apply Qlt_le_weak.
        -- by apply Hmin.
      * split; [by left|]. intros t' [->|Ht']%elem_of_cons Hok.
        -- apply Qle_refl.
        -- eapply Qle_trans; [exact Hle | by apply Hmin].
    + injection H as <-. split; [by left|].
      intros t' [->|Ht']%elem_of_cons Hok; [apply Qle_refl|].
      by destruct (best_trial_None _ Hb t' Ht').
  - destruct (IH t H) as [Hin Hmin]. split; [by right|].
    intros t' [->|Ht']%elem_of_cons Hok; [done | by apply Hmin].
Qed.

Lemma fmin_Ok space n st best trials st' :
  fmin env (get_loss env) space [] n st = (Ok (best, trials), st') →
  length trials = Z.to_nat n ∧
  (∃ configs, length configs = Z.to_nat n ∧
              log st' = log st ++ trial_events configs) ∧
  Forall (recorded env space) trials ∧
  ∃ t, best_trial trials = Some t ∧ unwrap_vals (misc_vals t) = Ok best.
Proof.
  intros H. unfold fmin in H.
  apply bind_Ok in H as (trials' & s1 & Hloop & H).
  apply fmin_loop_Ok in Hloop as (new & l & -> & Hlen & Hlen' & Hlog & Hrec).
  cbn [length] in *. rewrite Z.sub_0_r in *.
  destruct (best_trial ([] ++ new)) as [t|] eqn:Hb; [|discriminate].
  apply bind_Ok in H as (b & ? & [Hun ->]%lift_Ok & H).
  injection H as <- <- <-. cbn. eauto 10.
Qed.

(** ** The trial table *)

Lemma set_row_fresh rows idx row :
  Forall (λ r, r.1 ≠ idx) rows → set_row rows idx row = rows ++ [(idx, row)].
Proof.
  induction rows as [|[i r] rows IH]; intros H; [done|].
  apply Forall_cons in H as [Hi H]. cbn in *.
  destruct (Nat.eqb_spec i idx); [done|]. by rewrite IH.
Qed.

Lemma loc_set_Ok df idx row df' :
  loc_set df idx row = Ok df' →
  df_columns df' = df_columns df ∧
  df_rows df' = set_row (df_rows df) idx row.
Proof.
  unfold loc_set. destruct (Nat.eqb _ _); [|discriminate].
  by intros [= <-].
Qed.

(** The loop over the trials leaves the state alone and appends one row
    per trial, under the trial's index. *)
Lemma fill_table_Ok columns trials :
  ∀ idx df st df' st',
    fill_table columns idx trials df st = (Ok df', st') →
    Forall (λ r, (r.1 < idx)%nat) (df_rows df) →
    st' = st ∧ df_columns df' = df_columns df ∧
    (df_rows df').*1 = (df_rows df).*1 ++ seq idx (length trials).
Proof.
  induction trials as [|trial trials IH]; intros idx df st df' st' H Hlt;
    cbn [fill_table] in H; cbv zeta in H.
  - injection H as <- <-. cbn [length seq].
    by rewrite (right_id_L [] (++)).
  - apply bind_Ok in H as (s & ? & [_ ->]%read_Ok & H).
    apply bind_Ok in H as (vals & ? & [_ ->]%lift_Ok & H).
    apply bind_Ok in H as (te & ? & [_ ->]%lift_Ok & H).
    apply bind_Ok in H as (cells & ? & [_ ->]%lift_Ok & H).
    apply bind_Ok in H as (df1 & ? & [Hset ->]%lift_Ok & H).
    apply loc_set_Ok in Hset as [Hcols Hrows].
    rewrite set_row_fresh in Hrows
      by (eapply Forall_impl; [exact Hlt | cbn; lia]).
    apply IH in H as (-> & Hc & Hr).
    + split; [done|]. split; [congruence|].
      rewrite Hr, Hrows, fmap_app, <- app_assoc. done.
    + rewrite Hrows. apply Forall_app. split.
      * eapply Forall_impl; [exact Hlt | cbn; lia].
      * repeat constructor.
Qed.

(** ** A completed search *)

Lemma fmin_steps R `{!PreOrder R} space trials n :
  allows_emit R → (∀ t, allows_update R (set_trainer t)) →
  steps R (fmin env (get_loss env) space trials n).
Proof.
  intros He Ht. unfold fmin.
  pose proof (fmin_loop_steps R He Ht). solve_steps.
Qed.

Lemma optimize_Ok st st' :
  optimize env st = (Ok tt, st') →
  ∃ s n best trials configs df t rp decoded,
    search_space (self st) = Some s ∧
    max_evals (self st) = Some n ∧
    length trials = Z.to_nat n ∧ length configs = Z.to_nat n ∧
    Forall (recorded env s) trials ∧
    (∃ st1, fmin env (get_loss env) s [] n st = (Ok (best, trials), st1)) ∧
    (∃ b, best_trial trials = Some b ∧ unwrap_vals (misc_vals b) = Ok best) ∧
    df_columns df = ["iteration"] ++ odict_keys s ++ ["loss"] ∧
    (df_rows df).*1 = seq 0 (length trials) ∧
    space_eval s best = Ok decoded ∧
    config t !! "result" = Some (VPath rp) ∧
    trainer (self st') = Some t ∧
    search_space (self st') = Some s ∧
    best_result (self st') = Some best ∧
    args (self st') = args (self st) ∧
    max_evals (self st') = max_evals (self st) ∧
    log st'
    = log st ++ trial_events configs ++
      report_events (rp ++ [model_name (trainer_model t)]) df decoded.
Proof.
  intros H. unfold optimize in H. cbv zeta in H.
  apply bind_Ok in H as (s & ? & [Hs ->]%read_Ok & H).
  apply bind_Ok in H as (n & ? & [Hn ->]%read_Ok & H).
  apply bind_Ok in H as ([best trials] & st1 & Hfmin & H).
  pose proof (fmin_steps (same search_space) s [] n (same_allows_emit _)
                (λ _ _, eq_refl) st) as Fs.
  pose proof (fmin_steps (same args) s [] n (same_allows_emit _)
                (λ _ _, eq_refl) st) as Fa.
  pose proof (fmin_steps (same max_evals) s [] n (same_allows_emit _)
                (λ _ _, eq_refl) st) as Fm.
  rewrite Hfmin in Fs, Fa, Fm. unfold same in Fs, Fa, Fm. cbn in Fs, Fa, Fm.
  pose proof Hfmin as Hrun.
  apply fmin_Ok in Hfmin as (Hlen & (configs & Hlen' & Hlog) & Hrec & Hbest).
  rewrite bind_update in H. cbn [fst snd] in H.
  apply bind_Ok in H as (s' & ? & [Hs' ->]%read_Ok & H).
  cbn in Hs'. rewrite Fs, Hs in Hs'. injection Hs' as <-.
  apply bind_Ok in H as (df & st2 & Hfill & H).
  apply fill_table_Ok in Hfill as (-> & Hcols & Hrows); [|by constructor].
  apply bind_Ok in H as (t & ? & [Ht ->]%read_Ok & H).
  apply bind_Ok in H as (d & ? & [Hd ->]%lift_Ok & H).
  apply bind_Ok in H as (t' & ? & [Ht' ->]%read_Ok & H).
  apply bind_Ok in H as (p & ? & [Hp ->]%lift_Ok & H).
  rewrite !bind_emit in H.
  apply bind_Ok in H as (s' & ? & [Hs' ->]%read_Ok & H).
  apply bind_Ok in H as (b & ? & [Hb ->]%read_Ok & H).
  apply bind_Ok in H as (decoded & ? & [Hdec ->]%lift_Ok & H).
  unfold emit in H. injection H as <-.
  cbn in Ht, Ht', Hs', Hb. rewrite Fs, Hs in Hs'.
  assert (t' = t) as -> by congruence.
  injection Hs' as <-. injection Hb as <-.
  unfold getattr_config in Hd.
  destruct (config t !! "result") as [v|] eqn:Hres; [|discriminate].
  injection Hd as ->. unfold truediv in Hp.
  destruct d as [| |rp]; try discriminate. injection Hp as <-.
  exists s, n, best, trials, configs, df, t, rp, decoded.
  cbn. unfold report_events. rewrite Hlog, Fs, <- !app_assoc.
  repeat split; try done. by exists st1.
Qed.

(** ** Points of the space *)

Lemma decode_in_dist d v x :
  decode d v = Ok x → enc_valid d v → in_dist d x.
Proof.
  destruct d as [options|low high]; cbn.
  - destruct v as [| |i| |]; try discriminate.
    destruct (0 <=? i)%Z; [|discriminate].
    destruct (options !! Z.to_nat i) as [o|] eqn:Ho; [|discriminate].
    intros [= <-] _. by eapply list_elem_of_lookup_2.
  - by intros [= <-].
Qed.

Lemma space_eval_in_space space vals :
  ∀ r, space_eval space vals = Ok r →
       point_valid space vals →
       ∀ k v, r !! k = Some v → ∃ d, (k, d) ∈ space ∧ in_dist d v.
Proof.
  induction space as [|[k0 d0] space IH]; intros r H Hvalid k v Hk; cbn in H.
  - injection H as <-. by rewrite lookup_empty in Hk.
  - destruct (Hvalid k0 d0) as (v0 & Hv0 & Henc); [by left|].
    rewrite Hv0 in H. destruct (decode d0 v0) as [x|] eqn:Hx; [|discriminate].
    cbn in H. destruct (space_eval space vals) as [r'|] eqn:Hr; [|discriminate].
    injection H as <-. destruct (decide (k = k0)) as [->|Hne].
    + rewrite lookup_insert_eq in Hk. injection Hk as <-.
      exists d0. split; [by left | by eapply decode_in_dist].
    + rewrite lookup_insert_ne in Hk by done.
      destruct (IH r' eq_refl) with (k := k) (v := v) as (d & Hd & Hin);
        [|done|].
      * intros k' d' Hin. apply Hvalid. by right.
      * exists d. split; [by right | done].
Qed.

Lemma events_since_app st st' l :
  log st' = log st ++ l → events_since st st' = l.
Proof. intros H. unfold events_since. by rewrite H, drop_app_length. Qed.

Lemma evaluations_report_events p df best :
  evaluations (report_events p df best) = 0%nat.
Proof. reflexivity. Qed.

Lemma elem_of_trial_events e configs :
  e ∈ trial_events configs →
  (∃ c, e = ev_build_model c) ∨ e = ev_summary_hyperparameter ∨
  e = ev_tune_model.
Proof.
  unfold trial_events. intros (c & _ & He)%list_elem_of_In%in_flat_map.
  cbn in He. destruct He as [<-|[<-|[<-|[]]]]; eauto.
Qed.

Lemma elem_of_report_events e p df best :
  e ∈ report_events p df best ↔
  e = ev_mkdir p ∨ e = ev_to_csv (p ++ ["trials.csv"]) df ∨
  e = ev_print_table df ∨ e = ev_print "Found Golden Setting:" ∨
  e = ev_pprint best.
Proof.
  unfold report_events. rewrite !elem_of_cons, elem_of_nil. tauto.
Qed.

Lemma best_trial_nonempty trials b :
  best_trial trials = Some b → (0 < length trials)%nat.
Proof. destruct trials; [done | cbn; lia]. Qed.

Lemma space_eval_dom space vals r :
  space_eval space vals = Ok r →
  ∀ k, is_Some (r !! k) ↔ k ∈ odict_keys space.
Proof.
  revert r. induction space as [|[k0 d0] space IH]; intros r H k; cbn in H.
  - injection H as <-. rewrite lookup_empty. split; [by intros [] |].
    by intros ?%elem_of_nil.
  - destruct (vals !! k0) as [v0|]; [|discriminate].
    destruct (decode d0 v0) as [x|]; [|discriminate]. cbn in H.
    destruct (space_eval space vals) as [r'|]; [|discriminate].
    injection H as <-. cbn. rewrite elem_of_cons, <- (IH r' eq_refl).
    destruct (decide (k = k0)) as [->|Hne].
    + rewrite lookup_insert_eq. split; [by left | by eexists].
    + rewrite lookup_insert_ne by done. split; [by right|].
      by intros [?|?].
Qed.

(** ** A bound on the evaluations of any run *)

Lemma grows_of_same_log {A} (m : M KG ModelState TrainerState A) :
  steps same_log m → grows 0 m.
Proof.
  intros H st. exists []. rewrite (right_id_L [] (++)). split; [apply H|done].
Qed.

Lemma grows_weaken {A} j k (m : M KG ModelState TrainerState A) :
  (j ≤ k)%nat → grows j m → grows k m.
Proof. intros Hjk H st. destruct (H st) as (l & ? & ?). exists l. split; [done|lia]. Qed.

Lemma grows_bind {A B} j k (m : M KG ModelState TrainerState A)
  (K : A → M KG ModelState TrainerState B) :
  grows j m → (∀ x, grows k (K x)) → grows (j + k) (bind m K).
Proof.
  intros Hm HK st. unfold bind. destruct (Hm st) as (l & Hl & Hj).
  destruct (m st) as [[x|e] st1]; cbn in *.
  - destruct (HK x st1) as (l' & Hl' & Hk). exists (l ++ l').
    rewrite Hl', Hl, <- app_assoc, evaluations_app. split; [done|lia].
  - exists l. split; [done|lia].
Qed.

Lemma grows_emit e :
  grows (evaluations [e]) (emit (KG := KG) (ModelState := ModelState)
                             (TrainerState := TrainerState) e).
Proof. intros st. by exists [e]. Qed.

Lemma grows_emit_quiet e :
  evaluations [e] = 0%nat →
  grows 0 (emit (KG := KG) (ModelState := ModelState)
             (TrainerState := TrainerState) e).
Proof. intros H. rewrite <- H. apply grows_emit. Qed.

Lemma grows_call_trainer {A} k ev
  (method : Trainer ModelState TrainerState
            → res A * Trainer ModelState TrainerState) :
  (∀ t, evaluations [ev t] ≤ k)%nat →
  grows k (call_trainer (KG := KG) ev method).
Proof.
  intros Hk st. destruct (trainer (self st)) as [t|] eqn:Ht.
  - rewrite (call_trainer_run _ _ t) by done. by exists [ev t].
  - unfold call_trainer, bind, read. rewrite Ht. exists []. cbn.
    rewrite (right_id_L [] (++)). split; [done|lia].
Qed.

Ltac quiet :=
  apply grows_of_same_log;
  pose proof same_log_allows_update;
  pose proof set_config_attr_same_log;
  pose proof set_config_hyperparameter_same_log;
  solve [solve_steps].

Lemma get_loss_grows params : grows 1 (get_loss env params).
Proof.
  unfold get_loss.
  do 7 (apply (grows_bind 0 1); [quiet | intros ?]).
  apply (grows_bind 0 1); [by apply grows_call_trainer | intros ?].
  apply (grows_bind 0 1); [by apply grows_call_trainer | intros ?].
  apply (grows_bind 1 0); [by apply grows_call_trainer | intros ?].
  quiet.
Qed.

Lemma fmin_loop_grows space n :
  ∀ trials, grows n (fmin_loop env (get_loss env) space n trials).
Proof.
  induction n as [|n IH]; intros trials; cbn [fmin_loop]; cbv zeta.
  - quiet.
  - apply (grows_bind 0 (S n)); [quiet | intros ?].
    apply (grows_bind 0 (S n)); [quiet | intros ?].
    apply (grows_bind 1 n); [apply get_loss_grows | intros ?]. apply IH.
Qed.

Lemma fmin_grows space trials n :
  grows (Z.to_nat (n - Z.of_nat (length trials)))
    (fmin env (get_loss env) space trials n).
Proof.
  unfold fmin.
  apply (grows_weaken (Z.to_nat (n - Z.of_nat (length trials)) + 0));
    [lia|].
  apply grows_bind; [apply fmin_loop_grows | intros trials'].
  destruct (best_trial trials'); quiet.
Qed.

Lemma fill_table_same_log columns trials :
  ∀ idx df,
    steps (@same_log KG ModelState TrainerState)
      (fill_table columns idx trials df).
Proof.
  induction trials as [|trial trials IH]; intros idx df;
    cbn [fill_table]; cbv zeta; solve_steps.
Qed.

(** A run of [optimize], completed or not, evaluates the objective at most
    [max_evals] times. *)
Lemma optimize_grows st n :
  max_evals (self st) = Some n →
  within (Z.to_nat n) st (optimize env st).2.
Proof.
  intros Hn. unfold optimize. cbv zeta.
  destruct (search_space (self st)) as [s|] eqn:Hs.
  2: { unfold bind at 1. unfold read. rewrite Hs. exists []. cbn.
       rewrite (right_id_L [] (++)). split; [done|lia]. }
  rewrite (bind_read_Some _ _ _ _ _ Hs), (bind_read_Some _ _ _ _ _ Hn).
  clear Hn Hs. revert st.
  match goal with
  | |- ∀ st, within _ st (?m st).2 => change (grows (Z.to_nat n) m)
  end.
  apply (grows_weaken (Z.to_nat n + 0)); [lia|].
  apply grows_bind.
  { pose proof (fmin_grows s [] n) as H. cbn [length] in H.
    by rewrite Z.sub_0_r in H. }
  intros r. pose proof fill_table_same_log.
  do 7 (apply (grows_bind 0 0); [quiet | intros ?]).
  do 4 (apply (grows_bind 0 0); [by apply grows_emit_quiet | intros ?]).
  do 3 (apply (grows_bind 0 0); [quiet | intros ?]).
  by apply grows_emit_quiet.
Qed.

(** ** A search that runs to its end *)

Lemma tuning_config_ready dbg params c d :
  c !! "hyperparameters" = Some (VDict d) →
  (∃ rp, c !! "result" = Some (VPath rp)) →
  params !! "hyperparameters" = None → params !! "result" = None →
  config_ready (tuning_config dbg params c d).
Proof.
  intros Hd [rp Hr] Hp Hpr.
  unfold tuning_config, debug_config, forced_config, copied_config. split.
  - destruct dbg; [by rewrite lookup_insert_eq; eexists|].
    rewrite !lookup_insert_ne, lookup_insert_eq by done. by eexists.
  - exists rp. destruct dbg; rewrite !lookup_insert_ne by done;
      by rewrite lookup_union_r by (by rewrite lookup_fmap, Hpr).
Qed.

Lemma get_loss_completes params a t st :
  args (self st) = Some a → trainer (self st) = Some t →
  config_ready (config t) →
  params !! "hyperparameters" = None → params !! "result" = None →
  trainer_returns env →
  ∃ r st' t',
    get_loss env params st = (Ok r, st') ∧
    self st' = set_trainer t' (self st) ∧ config_ready (config t').
Proof.
  intros Ha Ht [[d Hd] Hr] Hp Hpr Henv.
  pose proof (tuning_config_ready (debug a) params _ d Hd Hr Hp Hpr) as Hc.
  destruct (Henv (with_config t (tuning_config (debug a) params (config t) d))
              Hc) as [(t1 & Hb & H1) _].
  destruct (Henv t1 H1) as (_ & (t2 & Hs & H2) & _).
  destruct (Henv t2 H2) as (_ & _ & (l & t3 & Htune & H3)).
  eexists _, _, t3. split; [|split; [|exact H3]].
  - unfold get_loss. rewrite (get_loss_configures params a t d) by done.
    erewrite bind_eq;
      [|eapply call_trainer_Ok; [cbn; reflexivity | exact Hb]].
    erewrite bind_eq;
      [|eapply call_trainer_Ok; [cbn; reflexivity | exact Hs]].
    erewrite bind_eq;
      [|eapply call_trainer_Ok; [cbn; reflexivity | exact Htune]].
    reflexivity.
  - reflexivity.
Qed.

Lemma space_eval_lookup_None space vals r k :
  space_eval space vals = Ok r → k ∉ odict_keys space → r !! k = None.
Proof.
  intros H Hk. apply eq_None_not_Some. intros Hs.
  by apply (space_eval_dom _ _ _ H) in Hs.
Qed.

Lemma fmin_loop_completes s n :
  "hyperparameters" ∉ odict_keys s → "result" ∉ odict_keys s →
  suggest_decodes env s → trainer_returns env →
  ∀ trials st a t,
    args (self st) = Some a → trainer (self st) = Some t →
    config_ready (config t) →
    ∃ trials' st' t',
      fmin_loop env (get_loss env) s n trials st = (Ok trials', st') ∧
      trainer (self st') = Some t' ∧ config_ready (config t').
Proof.
  intros Hhp Hres Hdec Henv.
  induction n as [|n IH]; intros trials st a t Ha Ht Hc;
    cbn [fmin_loop]; cbv zeta.
  - by exists trials, st, t.
  - destruct (Hdec trials) as (point & params & Hpoint & Hparams).
    rewrite (bind_lift_Ok _ _ _ _ Hpoint), (bind_lift_Ok _ _ _ _ Hparams).
    destruct (get_loss_completes params a t st Ha Ht Hc) as
      (r & st1 & t1 & Hrun & Hself & Hc1); [| |done|].
    { by eapply space_eval_lookup_None. }
    { by eapply space_eval_lookup_None. }
    rewrite (bind_eq _ _ _ _ _ Hrun).
    apply (IH _ st1 a t1); [by rewrite Hself | by rewrite Hself | done].
Qed.

Lemma best_trial_is_Some trials :
  (0 < length trials)%nat →
  Forall (λ t, status (result t) = STATUS_OK) trials →
  is_Some (best_trial trials).
Proof.
  destruct trials as [|t trials]; [cbn; lia|]. intros _ H.
  apply Forall_cons in H as [Ht _]. cbn. rewrite Ht. cbn.
  destruct (best_trial trials); [|by eexists].
  destruct (Qlt_le_dec _ _); by eexists.
Qed.

Lemma recorded_decodes s t :
  suggest_decodes env s → recorded env s t →
  ∃ point params,
    unwrap_vals (misc_vals t) = Ok point ∧ space_eval s point = Ok params.
Proof. intros Hdec [_ [prev ->]]. apply Hdec. Qed.

Lemma fmin_completes s n st a t :
  "hyperparameters" ∉ odict_keys s → "result" ∉ odict_keys s →
  suggest_decodes env s → trainer_returns env → 1 ≤ n →
  args (self st) = Some a → trainer (self st) = Some t →
  config_ready (config t) →
  ∃ best trials st' t',
    fmin env (get_loss env) s [] n st = (Ok (best, trials), st') ∧
    trainer (self st') = Some t' ∧ config_ready (config t').
Proof.
  intros Hhp Hres Hdec Henv Hn Ha Ht Hc. unfold fmin.
  destruct (fmin_loop_completes s (Z.to_nat (n - Z.of_nat (length (@nil Trial))))
              Hhp Hres Hdec Henv [] st a t Ha Ht Hc)
    as (trials & st' & t' & Hloop & Ht' & Hc').
  rewrite (bind_eq _ _ _ _ _ Hloop).
  apply fmin_loop_Ok in Hloop as (new & configs & -> & Hlen & _ & _ & Hrec).
  destruct (best_trial_is_Some ([] ++ new)) as [b Hb].
  { cbn in *. lia. }
  { eapply Forall_impl; [exact Hrec | by intros ? [? _]]. }
  rewrite Hb. destruct (best_trial_spec _ _ Hb) as [Hin _].
  destruct (recorded_decodes s b Hdec
              (proj1 (Forall_forall _ _) Hrec b Hin)) as (point & _ & Hp & _).
  rewrite (bind_lift_Ok _ _ _ _ Hp). by exists point, ([] ++ new), st', t'.
Qed.

Lemma row_cells_Ok columns (te : gmap string scalar) :
  (∀ k, k ∈ columns → is_Some (te !! k)) →
  ∃ cells, row_cells columns te = Ok cells ∧ length cells = length columns.
Proof.
  induction columns as [|k columns IH]; intros H; [by exists []|].
  destruct (H k) as [v Hv]; [by left|].
  destruct IH as (cells & Hcells & Hlen); [intros k' ?; apply H; by right|].
  exists (v :: cells). cbn. rewrite Hv, Hcells. cbn. by rewrite Hlen.
Qed.

Lemma fill_table_completes s trials :
  suggest_decodes env s →
  Forall (recorded env s) trials →
  ∀ idx df st,
    search_space (self st) = Some s →
    length (df_columns df) = S (S (length (odict_keys s))) →
    ∃ df', fill_table (odict_keys s) idx trials df st = (Ok df', st).
Proof.
  intros Hdec. induction trials as [|trial trials IH];
    intros Hrec idx df st Hs Hcols; cbn [fill_table]; cbv zeta.
  - by exists df.
  - apply Forall_cons in Hrec as [Hrec Hrecs].
    destruct (recorded_decodes s trial Hdec Hrec)
      as (point & te & Hpoint & Hte).
    rewrite (bind_read_Some _ _ _ _ _ Hs), (bind_lift_Ok _ _ _ _ Hpoint),
      (bind_lift_Ok _ _ _ _ Hte).
    destruct (row_cells_Ok (odict_keys s) te) as (cells & Hcells & Hlen).
    { intros k Hk. by apply (space_eval_dom _ _ _ Hte). }
    rewrite (bind_lift_Ok _ _ _ _ Hcells).
    unfold loc_set. cbn [length]. rewrite !length_app. cbn [length].
    rewrite Hlen, Hcols, Nat.add_1_r, Nat.eqb_refl.
    rewrite (bind_lift_Ok _ _ _ _ eq_refl). by apply IH.
Qed.

(** On a tunable optimizer [optimize] returns. *)
Lemma optimize_completes st :
  tunable env st → ∃ st', optimize env st = (Ok tt, st').
Proof.
  intros (a & s & n & t & Ha & Hs & Hn & Ht & Hn1 & Hc & Hhp & Hres
          & Hdec & Henv).
  destruct (fmin_completes s n st a t Hhp Hres Hdec Henv Hn1 Ha Ht Hc)
    as (best & trials & st1 & t1 & Hfmin & Ht1 & [_ [rp Hrp]]).
  pose proof (fmin_steps (same search_space) s [] n (same_allows_emit _)
                (λ _ _, eq_refl) st) as Fs.
  rewrite Hfmin in Fs. unfold same in Fs. cbn in Fs. rewrite Hs in Fs.
  pose proof Hfmin as Hrun.
  apply fmin_Ok in Hrun as (_ & _ & Hrec & b & Hb & Hun).
  destruct (best_trial_spec _ _ Hb) as [Hin _].
  destruct (recorded_decodes s b Hdec (proj1 (Forall_forall _ _) Hrec b Hin))
    as (point & decoded & Hpoint & Hdecoded).
  assert (point = best) as -> by congruence.
  unfold optimize. cbv zeta.
  rewrite (bind_read_Some _ _ _ _ _ Hs), (bind_read_Some _ _ _ _ _ Hn),
    (bind_eq _ _ _ _ _ Hfmin), bind_update.
  cbn [fst snd]. erewrite bind_read_Some by (cbn; exact Fs).
  edestruct (fill_table_completes s trials Hdec Hrec 0%nat) as [df Hdf];
    [ | | erewrite (bind_eq _ _ _ _ _ Hdf)].
  { cbn. exact Fs. }
  { cbn [df_columns]. rewrite !length_app. cbn [length]. lia. }
  erewrite bind_read_Some by (cbn; exact Ht1).
  unfold getattr_config. rewrite Hrp.
  rewrite (bind_lift_Ok _ _ _ _ eq_refl).
  erewrite bind_read_Some by (cbn; exact Ht1).
  unfold truediv. rewrite (bind_lift_Ok _ _ _ _ eq_refl), !bind_emit.
  erewrite bind_read_Some by (cbn; exact Fs).
  erewrite bind_read_Some by (cbn; reflexivity).
  rewrite (bind_lift_Ok _ _ _ _ Hdecoded). by eexists.
Qed.

(** C4: on an optimizer constructed from [a], a run of [optimize]
    evaluates the objective a bounded number of times: never more than 1
    in debug mode, than [max_number_trials] otherwise, whatever its
    outcome; a run that completes has evaluated it exactly that many
    times; and on a tunable optimizer the run completes. *)
Theorem optimize_evaluations a st0 st :
  __init__ env (Some a) st0 = (Ok tt, st) →
  let n := if debug a then 1 else max_number_trials a in
  (evaluations (events_since st (optimize env st).2) ≤ Z.to_nat n)%nat ∧
  (∀ st', optimize env st = (Ok tt, st') →
          Z.of_nat (evaluations (events_since st st')) = n) ∧
  (tunable env st → ∃ st', optimize env st = (Ok tt, st')).
Proof.
  intros Hinit n. apply init_Ok in Hinit as (_ & Hmax & _).
  split; [|split; [|apply optimize_completes]].
  - destruct (optimize_grows st n Hmax) as (l & Hl & Hle).
    by rewrite (events_since_app _ _ _ Hl).
  - intros st' Hopt. apply optimize_Ok in Hopt
      as (s & n' & best & trials & configs & df & t & rp & decoded & _ & Hn
          & Hlen & Hlen' & _ & _ & (b & Hb & _) & _ & _ & _ & _ & _ & _ & _
          & _ & _ & Hlog).
    rewrite (events_since_app _ _ _ Hlog), evaluations_app,
      evaluations_trial_events, evaluations_report_events, Hlen'.
    apply best_trial_nonempty in Hb. rewrite Hmax in Hn. injection Hn as <-.
    lia.
Qed.

(** C5: the table a completed search builds, writes and prints has one row
    per evaluation performed, indexed from 0 in order. *)
Theorem trial_table_row_count st st' :
  optimize env st = (Ok tt, st') →
  ∃ p df,
    ev_to_csv p df ∈ events_since st st' ∧
    (∀ p' df', ev_to_csv p' df' ∈ events_since st st' → p' = p ∧ df' = df) ∧
    (∀ df', ev_print_table df' ∈ events_since st st' → df' = df) ∧
    length (df_rows df) = evaluations (events_since st st') ∧
    (df_rows df).*1 = seq 0 (evaluations (events_since st st')).
Proof.
  intros Hopt. apply optimize_Ok in Hopt
    as (s & n & best & trials & configs & df & t & rp & decoded & _ & Hn
        & Hlen & Hlen' & _ & _ & _ & _ & Hrows & _ & _ & _ & _ & _
        & _ & _ & Hlog).
  rewrite (events_since_app _ _ _ Hlog), evaluations_app,
    evaluations_trial_events, evaluations_report_events, Hlen', <- Hlen,
    Nat.add_0_r.
  eexists _, df. split.
  { apply elem_of_app. right. apply elem_of_report_events. right. by left. }
  split.
  { intros p' df' [Hin|Hin]%elem_of_app.
    - apply elem_of_trial_events in Hin as [[c ?]|[?|?]]; discriminate.
    - apply elem_of_report_events in Hin as [?|[Heq|[?|[?|?]]]];
        try discriminate.
      by injection Heq as -> ->. }
  split.
  { intros df' [Hin|Hin]%elem_of_app.
    - apply elem_of_trial_events in Hin as [[c ?]|[?|?]]; discriminate.
    - apply elem_of_report_events in Hin as [?|[?|[Heq|[?|?]]]];
        try discriminate.
      by injection Heq as ->. }
  split; [|done]. by rewrite <- (length_fmap fst), Hrows, length_seq.
Qed.

(** C6: on a tunable optimizer [optimize] returns, and a completed search
    ends by creating the directory
    [<result>/<model_name>], writing there [trials.csv] with the columns
    [iteration], the hyperparameters of the search space in their order,
    [loss], printing that table, the banner, and the best point decoded,
    the one [return_best] then returns.  [result] is the trainer's
    configuration's, [model_name] the trainer's model's. *)
Theorem optimize_writes_trials_csv st :
  (tunable env st → ∃ st', optimize env st = (Ok tt, st')) ∧
  ∀ st',
  optimize env st = (Ok tt, st') →
  ∃ s t result_path df best configs,
    search_space (self st) = Some s ∧
    trainer (self st') = Some t ∧
    config t !! "result" = Some (VPath result_path) ∧
    events_since st st'
    = trial_events configs ++
      [ev_mkdir (result_path ++ [model_name (trainer_model t)]);
       ev_to_csv
         (result_path ++ [model_name (trainer_model t)] ++ ["trials.csv"]) df;
       ev_print_table df;
       ev_print "Found Golden Setting:";
       ev_pprint best] ∧
    df_columns df = "iteration" :: odict_keys s ++ ["loss"] ∧
    return_best st' = (Ok best, st').
Proof.
  split; [apply optimize_completes|].
  intros st' Hopt. apply optimize_Ok in Hopt
    as (s & n & best & trials & configs & df & t & rp & decoded & Hs & _
        & _ & _ & _ & _ & _ & Hcols & _ & Hdec & Hres & Ht & Hs' & Hb
        & _ & _ & Hlog).
  exists s, t, rp, df, decoded, configs.
  rewrite (events_since_app _ _ _ Hlog). unfold report_events.
  rewrite <- app_assoc. repeat split; try done.
  unfold return_best.
  rewrite (bind_read_Some _ _ _ _ _ Hs'), (bind_read_Some _ _ _ _ _ Hb).
  by rewrite Hdec.
Qed.

(** C7: after a completed search, with a suggestion algorithm that proposes
    points of the space, [return_best] returns the point of the first trial
    of least loss, decoded: a value for every hyperparameter of the search
    space and for nothing else, each a member of what the space declares
    for that hyperparameter. *)
Theorem return_best_in_search_space st st' :
  (∀ s, search_space (self st) = Some s → suggest_valid env s) →
  optimize env st = (Ok tt, st') →
  ∃ s n best trials b point,
    search_space (self st) = Some s ∧ search_space (self st') = Some s ∧
    max_evals (self st) = Some n ∧
    return_best st' = (Ok best, st') ∧
    (∃ st1, fmin env (get_loss env) s [] n st = (Ok (point, trials), st1)) ∧
    b ∈ trials ∧
    (∀ t, t ∈ trials → (loss (result b) <= loss (result t))%Q) ∧
    unwrap_vals (misc_vals b) = Ok point ∧
    space_eval s point = Ok best ∧
    (∀ k, is_Some (best !! k) ↔ k ∈ odict_keys s) ∧
    (∀ k v, best !! k = Some v → ∃ d, (k, d) ∈ s ∧ in_dist d v).
Proof.
  intros Hvalid Hopt. apply optimize_Ok in Hopt
    as (s & n & point & trials & configs & df & t & rp & best & Hs & Hn
        & _ & _ & Hrec & Hrun & (b & Hbest & Hun) & _ & _ & Hdec & _ & _
        & Hs' & Hb & _ & _ & _).
  exists s, n, best, trials, b, point.
  destruct (best_trial_spec _ _ Hbest) as [Hin Hmin].
  repeat split; try done.
  - unfold return_best.
    rewrite (bind_read_Some _ _ _ _ _ Hs'), (bind_read_Some _ _ _ _ _ Hb).
    by rewrite Hdec.
  - intros t' Ht'. apply Hmin; [done|].
    by destruct (proj1 (Forall_forall _ _) Hrec t' Ht').
  - by apply (space_eval_dom _ _ _ Hdec).
  - by apply (space_eval_dom _ _ _ Hdec).
  - apply (space_eval_in_space _ _ _ Hdec).
    destruct (proj1 (Forall_forall _ _) Hrec b Hin) as [_ [prev Hprev]].
    rewrite Hprev in Hun. by eapply (Hvalid s Hs).
Qed.

(** * Further properties of the module *)

(** ** The three name tables *)

(** X1: the three tables agree: for every name, the configuration class is
    the model class with [Config] appended and the hyperparameter class is
    the model class with [Params] appended; a name missing from one table
    is missing from all. *)
Theorem config_and_params_names (k : string) :
  odict_get configMap k = (λ v, v +:+ "Config") <$> odict_get modelMap k ∧
  odict_get hypMap k = (λ v, v +:+ "Params") <$> odict_get modelMap k.
Proof.
  unfold odict_get, configMap, hypMap, modelMap.
  repeat match goal with
         | |- context [String.eqb ?x k] => destruct (String.eqb x k)
         end; by split.
Qed.

(** X2: every class name of [modelMap], lower-cased, is the key it is
    filed under: the constructor resolves a class name (as the
    not-implemented message lists them) to that same class. *)
Theorem modelMap_class_name_resolves (k v : string) :
  odict_get modelMap k = Some v →
  lower v = k ∧ odict_get modelMap (lower v) = Some v.
Proof.
  intros H. assert (lower v = k) as Hk; [|by rewrite Hk].
  unfold odict_get, modelMap in H.
  repeat match type of H with
         | context [String.eqb ?x k] =>
             destruct (String.eqb_spec x k) as [<-|_];
             [by injection H as <-|]
         end.
  discriminate.
Qed.

(** ** What a run does to the outside, by kind of event *)

#[local] Instance emits_only_preorder (P : event → Prop) :
  PreOrder (@emits_only KG ModelState TrainerState P).
Proof.
  split.
  - intros st. exists []. by rewrite (right_id_L [] (++)).
  - intros st1 st2 st3 (l1 & H1 & F1) (l2 & H2 & F2). exists (l1 ++ l2).
    rewrite H2, H1, <- app_assoc. split; [done | by apply Forall_app].
Qed.









(** ** Error and edge behaviour of the objective *)

Lemma copy_params_raises v (l : list (string * scalar)) :
  ∀ t d st,
    NoDup l.*1 → ("hyperparameters", v) ∈ l →
    trainer (self st) = Some t →
    config t !! "hyperparameters" = Some (VDict d) →
    ∃ st',
      for_each l (λ kv,
        bind (set_config_attr kv.1 kv.2)
          (λ _, set_config_hyperparameter kv.1 kv.2)) st
      = (Raise (TypeError "object does not support item assignment"), st') ∧
      log st' = log st.
Proof.
  induction l as [|[k x] l IH]; intros t d st Hnd Hin Ht Hd;
    [by apply elem_of_nil in Hin|].
  cbn [for_each fmap list_fmap fst snd] in *.
  apply NoDup_cons in Hnd as [Hk Hnd].
  destruct (decide (k = "hyperparameters")) as [->|Hne].
  - eexists. split.
    + apply bind_eq_Raise.
      rewrite (bind_eq _ _ _ _ _ (set_config_attr_run _ x t st Ht)).
      unfold set_config_hyperparameter, setitem_hyperparameters.
      erewrite bind_read_Some by (cbn; reflexivity).
      cbn [config with_config]. rewrite lookup_insert_eq. reflexivity.
    + reflexivity.
  - apply elem_of_cons in Hin as [[= ? _]|Hin]; [done|].
    assert (bind (set_config_attr k x)
              (λ _, set_config_hyperparameter k x) st
            = (Ok tt,
               {| self :=
                    set_trainer
                      (with_config t
                         (<["hyperparameters" := VDict (<[k:=x]> d)]>
                            (<[k:=VScalar x]> (config t))))
                      (self st);
                  log := log st |})) as Hstep.
    { rewrite (bind_eq _ _ _ _ _ (set_config_attr_run k x t st Ht)).
      rewrite (set_config_hyperparameter_run k x
                 (with_config t (<[k:=VScalar x]> (config t))) d);
        [done | done |].
      cbn. by rewrite lookup_insert_ne. }
    rewrite (bind_eq _ _ _ _ _ Hstep).
    match goal with
    | |- ∃ st', for_each _ _ ?s1 = _ ∧ _ =>
        destruct (IH (with_config t
                        (<["hyperparameters" := VDict (<[k:=x]> d)]>
                           (<[k:=VScalar x]> (config t))))
                    (<[k:=x]> d) s1) as (st' & H & Hl);
          [exact Hnd | exact Hin | reflexivity | apply lookup_insert_eq |]
    end.
    exists st'. split; [exact H | exact Hl].
Qed.

(** X3: a sampled hyperparameter named [hyperparameters] (with a scalar
    value) makes the objective raise [TypeError] in the copying loop: the
    first assignment replaces the configuration's [hyperparameters] dict
    by the sampled value and the second then indexes that value.  The
    trainer is never called. *)
Theorem get_loss_hyperparameters_key params v t d st :
  trainer (self st) = Some t →
  config t !! "hyperparameters" = Some (VDict d) →
  params !! "hyperparameters" = Some v →
  ∃ st',
    get_loss env params st
    = (Raise (TypeError "object does not support item assignment"), st') ∧
    log st' = log st.
Proof.
  intros Ht Hd Hp.
  destruct (copy_params_raises v (map_to_list params) t d st) as (st' & H & Hl);
    [apply NoDup_fst_map_to_list | by apply elem_of_map_to_list | done
    | done |].
  exists st'. split; [|done]. unfold get_loss. by apply bind_eq_Raise.
Qed.

(** X4: when training fails the objective propagates the exception of
    [tune_model] and undoes nothing: the trainer has been rebuilt and
    summarised with the trial's configuration, and [self.trainer] is as
    the failing call left it. *)
Theorem get_loss_tune_failure params a t d t1 t2 t3 e st :
  args (self st) = Some a →
  trainer (self st) = Some t →
  config t !! "hyperparameters" = Some (VDict d) →
  params !! "hyperparameters" = None →
  let c := tuning_config (debug a) params (config t) d in
  build_model env (with_config t c) = (Ok tt, t1) →
  summary_hyperparameter env t1 = (Ok tt, t2) →
  tune_model env t2 = (Raise e, t3) →
  get_loss env params st
  = (Raise e,
     {| self := set_trainer t3 (self st);
        log := log st ++ [ev_build_model c; ev_summary_hyperparameter;
                          ev_tune_model] |}).
Proof.
  intros Ha Ht Hd Hp c Hb Hs Htune.
  unfold get_loss. rewrite (get_loss_configures params a t d) by done.
  erewrite bind_eq;
    [|eapply call_trainer_Ok; [cbn; reflexivity | exact Hb]].
  erewrite bind_eq;
    [|eapply call_trainer_Ok; [cbn; reflexivity | exact Hs]].
  erewrite bind_eq_Raise.
  - reflexivity.
  - erewrite call_trainer_run by (cbn; reflexivity). rewrite Htune.
    cbn. by rewrite <- !app_assoc.
Qed.

(** ** Trials and the shared configuration *)

Lemma tuning_config_absorbs dbg (p1 p2 : gmap string scalar) c d :
  p1 !! "hyperparameters" = None → p2 !! "hyperparameters" = None →
  dom p1 ⊆ dom p2 →
  tuning_config dbg p2 (tuning_config dbg p1 c d)
    (if dbg then <["epochs" := SInt 1]> (p1 ∪ d) else p1 ∪ d)
  = tuning_config dbg p2 c d.
Proof.
  intros H1 H2 Hdom.
  assert (∀ k, p2 !! k = None → p1 !! k = None) as Hnone.
  { intros k Hk. apply not_elem_of_dom. intros Hin. apply Hdom in Hin.
    by apply not_elem_of_dom in Hk. }
  unfold tuning_config, debug_config, forced_config, copied_config.
  apply map_eq. intros k. destruct dbg.
  - rewrite !lookup_insert.
    repeat (case_decide; [subst; try done|]).
    + do 2 f_equal. apply map_eq. intros j.
      destruct (decide (j = "epochs")) as [->|Hj];
        [by rewrite !lookup_insert_eq|].
      rewrite !lookup_insert_ne, !lookup_union by done.
      rewrite lookup_insert_ne, lookup_union by done.
      destruct (p2 !! j) eqn:E; [by destruct (p1 !! j), (d !! j)|].
      rewrite (Hnone _ E). by destruct (d !! j).
    + rewrite !lookup_union, !lookup_fmap, !lookup_insert.
      repeat (case_decide; [subst; try done|]).
      rewrite !lookup_union, !lookup_fmap.
      destruct (p2 !! k) eqn:E; [by destruct (p1 !! k), (c !! k)|].
      rewrite (Hnone _ E). by destruct (c !! k).
  - rewrite !lookup_insert.
    repeat (case_decide; [subst; try done|]).
    + do 2 f_equal. apply map_eq. intros j. rewrite !lookup_union.
      destruct (p2 !! j) eqn:E; [by destruct (p1 !! j), (d !! j)|].
      rewrite (Hnone _ E). by destruct (d !! j).
    + rewrite !lookup_union, !lookup_fmap, !lookup_insert.
      repeat (case_decide; [subst; try done|]).
      rewrite !lookup_union, !lookup_fmap.
      destruct (p2 !! k) eqn:E; [by destruct (p1 !! k), (c !! k)|].
      rewrite (Hnone _ E). by destruct (c !! k).
Qed.

Lemma tuning_config_hyperparameters dbg (params : gmap string scalar) c d :
  tuning_config dbg params c d !! "hyperparameters"
  = Some (VDict (if dbg then <["epochs" := SInt 1]> (params ∪ d)
                 else params ∪ d)).
Proof.
  unfold tuning_config, debug_config, forced_config, copied_config.
  destruct dbg; [by rewrite lookup_insert_eq|].
  by rewrite !lookup_insert_ne, lookup_insert_eq by done.
Qed.

(** A trial with a trainer that keeps the configuration. *)
Lemma get_loss_keeps_run params a t d st :
  args (self st) = Some a →
  trainer (self st) = Some t →
  config t !! "hyperparameters" = Some (VDict d) →
  params !! "hyperparameters" = None →
  trainer_keeps_config env →
  let c := tuning_config (debug a) params (config t) d in
  ∃ r t',
    get_loss env params st
    = (Ok r,
       {| self := set_trainer t' (self st);
          log := log st ++ [ev_build_model c; ev_summary_hyperparameter;
                            ev_tune_model] |}) ∧
    config t' = c.
Proof.
  intros Ha Ht Hd Hp Hkeep c.
  destruct (Hkeep (with_config t c)) as [(t1 & Hb & C1) _].
  destruct (Hkeep t1) as (_ & (t2 & Hs & C2) & _).
  destruct (Hkeep t2) as (_ & _ & (l & t3 & Htune & C3)).
  eexists _, t3. split; [|by rewrite C3, C2, C1].
  unfold get_loss. rewrite (get_loss_configures params a t d) by done.
  erewrite bind_eq;
    [|eapply call_trainer_Ok; [cbn; reflexivity | exact Hb]].
  erewrite bind_eq;
    [|eapply call_trainer_Ok; [cbn; reflexivity | exact Hs]].
  erewrite bind_eq;
    [|eapply call_trainer_Ok; [cbn; reflexivity | exact Htune]].
  cbn. by rewrite <- !app_assoc.
Qed.

(** X5: the configuration is shared and rewritten in place, yet nothing of
    one trial shows in the next when every trial samples the same
    hyperparameters: with a trainer that leaves the configuration as it
    is, a trial with [p2] calls the trainer with the same configuration,
    whether or not a trial with [p1] (whose names are among those of [p2])
    ran before it. *)
Theorem get_loss_trials_do_not_leak p1 p2 a t d st :
  args (self st) = Some a →
  trainer (self st) = Some t →
  config t !! "hyperparameters" = Some (VDict d) →
  p1 !! "hyperparameters" = None → p2 !! "hyperparameters" = None →
  dom p1 ⊆ dom p2 →
  trainer_keeps_config env →
  let st1 := (get_loss env p1 st).2 in
  events_since st1 (get_loss env p2 st1).2
  = events_since st (get_loss env p2 st).2 ∧
  events_since st (get_loss env p2 st).2
  = [ev_build_model (tuning_config (debug a) p2 (config t) d);
     ev_summary_hyperparameter; ev_tune_model].
Proof.
  intros Ha Ht Hd H1 H2 Hdom Hkeep st1.
  destruct (get_loss_keeps_run p2 a t d st Ha Ht Hd H2 Hkeep)
    as (r2 & t2 & Hrun2 & _).
  assert (events_since st (get_loss env p2 st).2
          = [ev_build_model (tuning_config (debug a) p2 (config t) d);
             ev_summary_hyperparameter; ev_tune_model]) as Hdirect.
  { rewrite Hrun2. by apply events_since_app. }
  split; [|exact Hdirect]. rewrite Hdirect.
  destruct (get_loss_keeps_run p1 a t d st Ha Ht Hd H1 Hkeep)
    as (r1 & t1 & Hrun1 & Hc1).
  subst st1. rewrite Hrun1. cbn [snd].
  edestruct (get_loss_keeps_run p2 a t1) as (r & t' & Hrun & _);
    [ | | | exact H2 | exact Hkeep | rewrite Hrun].
  - cbn. exact Ha.
  - cbn. reflexivity.
  - rewrite Hc1. apply tuning_config_hyperparameters.
  - cbn [snd]. rewrite Hc1, tuning_config_absorbs by done.
    by apply events_since_app.
Qed.

(** ** The table, row by row *)










(** ** One search after another *)

(** X9: a second search on the same object starts afresh: it evaluates the
    objective as many times again as the first did, and its table holds
    the trials of the second search only, indexed from 0. *)
Theorem optimize_again_starts_afresh st st1 st2 :
  optimize env st = (Ok tt, st1) →
  optimize env st1 = (Ok tt, st2) →
  evaluations (events_since st1 st2) = evaluations (events_since st st1) ∧
  ∃ p df,
    ev_to_csv p df ∈ events_since st1 st2 ∧
    (df_rows df).*1 = seq 0 (evaluations (events_since st st1)).
Proof.
  intros H1 H2.
  apply optimize_Ok in H1
    as (s & n & best & trials & configs & df & t & rp & decoded & _ & Hn
        & _ & Hlen & _ & _ & _ & _ & _ & _ & _ & _ & _ & _ & _ & Hmax
        & Hlog).
  apply optimize_Ok in H2
    as (s' & n' & best' & trials' & configs' & df' & t' & rp' & decoded'
        & _ & Hn' & Hlen0' & Hlen' & _ & _ & _ & _ & Hrows' & _ & _ & _ & _
        & _ & _ & _ & Hlog').
  rewrite Hmax, Hn in Hn'. injection Hn' as <-.
  rewrite (events_since_app _ _ _ Hlog), (events_since_app _ _ _ Hlog'),
    !evaluations_app, !evaluations_trial_events, !evaluations_report_events,
    Hlen, Hlen', !Nat.add_0_r.
  split; [done|]. eexists _, df'. split.
  - apply elem_of_app. right. apply elem_of_report_events. right. by left.
  - by rewrite Hrows', Hlen0'.
Qed.

(** ** What a search leaves alone *)

Lemma fill_table_steps (R : relation (state KG ModelState TrainerState))
  `{!PreOrder R} columns trials :
  ∀ idx df, steps R (fill_table columns idx trials df).
Proof.
  induction trials as [|trial trials IH]; intros idx df;
    cbn [fill_table]; cbv zeta; solve_steps.
Qed.

Lemma optimize_steps R `{!PreOrder R} :
  allows_emit R →
  (∀ t, allows_update R (set_trainer t)) →
  (∀ b, allows_update R (set_best_result b)) →
  steps R (optimize env).
Proof.
  intros He Ht Hb. unfold optimize. cbv zeta.
  pose proof (λ s n, fmin_steps R s [] n He Ht).
  pose proof (fill_table_steps R). solve_steps.
Qed.

(** X10: whatever its outcome, a run of [optimize] rebinds no attribute of
    the optimizer other than [trainer] and [best_result]: the arguments,
    the knowledge graph, the two classes, the search space and the number
    of evaluations are as they were, and nothing is taken back from the
    log. *)
Theorem optimize_keeps_attributes st :
  let st' := (optimize env st).2 in
  args (self st') = args (self st) ∧
  knowledge_graph (self st') = knowledge_graph (self st) ∧
  model_obj (self st') = model_obj (self st) ∧
  config_obj (self st') = config_obj (self st) ∧
  search_space (self st') = search_space (self st) ∧
  max_evals (self st') = max_evals (self st) ∧
  log st `prefix_of` log st'.
Proof.
  intros st'. subst st'. repeat split.
  - exact (optimize_steps (same args) (same_allows_emit _)
             (λ _ _, eq_refl) (λ _ _, eq_refl) st).
  - exact (optimize_steps (same knowledge_graph) (same_allows_emit _)
             (λ _ _, eq_refl) (λ _ _, eq_refl) st).
  - exact (optimize_steps (same model_obj) (same_allows_emit _)
             (λ _ _, eq_refl) (λ _ _, eq_refl) st).
  - exact (optimize_steps (same config_obj) (same_allows_emit _)
             (λ _ _, eq_refl) (λ _ _, eq_refl) st).
  - exact (optimize_steps (same search_space) (same_allows_emit _)
             (λ _ _, eq_refl) (λ _ _, eq_refl) st).
  - exact (optimize_steps (same max_evals) (same_allows_emit _)
             (λ _ _, eq_refl) (λ _ _, eq_refl) st).
  - exact (optimize_steps log_extends log_allows_emit
             (λ _, log_allows_update _) (λ _, log_allows_update _) st).
Qed.

(** ** A constructor that returns *)






(** ** Exceptions the handler does not take *)


End Properties.

(** * Runs in the small world *)

Lemma demo_init :
  __init__ demo_env (Some (demo_args "transe" false)) demo_state
  = (Ok tt, demo_constructed false).
Proof. vm_compute. reflexivity. Qed.

Lemma demo_optimize :
  optimize demo_env (demo_constructed false) = (Ok tt, demo_optimized false).
Proof. vm_compute. reflexivity. Qed.

Lemma demo_suggest_valid : suggest_valid demo_env demo_space.
Proof.
  intros trials point H. cbn in H. unfold demo_suggest in H.
  assert (point
          = <["learning_rate" := SFloat (1 # 100)]>
            (<["L1_flag" := SInt (if Nat.even (length trials) then 0 else 1)]>
             (<["epochs" := SInt 0]> ∅))) as ->.
  { destruct (Nat.even (length trials)); vm_compute in H; by injection H as <-. }
  intros k d Hin. unfold demo_space in Hin.
  rewrite !elem_of_cons, elem_of_nil in Hin.
  destruct Hin as [[= -> ->]|[[= -> ->]|[[= -> ->]|[]]]].
  - eexists. split; [reflexivity|]. cbn. eexists. split; [reflexivity|].
    split; by vm_compute.
  - eexists. split; [reflexivity|]. cbn. eexists. split; [reflexivity|].
    destruct (Nat.even (length trials)); cbn; lia.
  - eexists. split; [reflexivity|]. cbn. eexists. split; [reflexivity|].
    cbn. lia.
Qed.



Lemma demo_collaborators_ok :
  collaborators_ok demo_env (demo_args "transe" false) tt demo_params
    (ModelClass demo_new_model) (ConfigClass demo_new_config)
    ∅ demo_config demo_model demo_trainer.
Proof.
  split; [reflexivity|]. split.
  { exists demo_model_module, demo_config_module, demo_params_module,
      (λ _, Ok ∅).
    split.
    { intros k Hk. vm_compute in Hk. injection Hk as <-. by split. }
    split; [reflexivity|]. split.
    { intros k Hk. vm_compute in Hk. by injection Hk as <-. }
    split; [reflexivity|]. split.
    { intros k Hk. vm_compute in Hk. by injection Hk as <-. }
    by split. }
  split; [|reflexivity].
  exists demo_new_config, demo_new_model. repeat split; reflexivity.
Qed.

Lemma init_supported_succeeds_witness :
  model (demo_args "transe" false) ∈ odict_keys modelMap ∧
  (lower (model (demo_args "transe" false)) ∉ unsupported) ∧
  collaborators_ok demo_env (demo_args "transe" false) tt demo_params
    (ModelClass demo_new_model) (ConfigClass demo_new_config)
    ∅ demo_config demo_model demo_trainer ∧
  trainer (self (demo_constructed false)) = Some demo_trainer.
Proof.
  assert (model (demo_args "transe" false) ∈ odict_keys modelMap) as H1
    by (apply (bool_decide_unpack _); vm_compute; exact I).
  assert (lower (model (demo_args "transe" false)) ∉ unsupported) as H2
    by (apply (bool_decide_unpack _); vm_compute; exact I).
  split; [exact H1|]. split; [exact H2|].
  split; [exact demo_collaborators_ok|].
  unfold demo_constructed.
  rewrite (init_supported_succeeds demo_env (demo_args "transe" false) tt
             demo_params (ModelClass demo_new_model)
             (ConfigClass demo_new_config) ∅ demo_config demo_model
             demo_trainer demo_state H1 H2 demo_collaborators_ok).
  reflexivity.
Defined.

Lemma init_unresolvable_module_raises_witness :
  (lower (model (demo_args "transg" false)) ∉ unsupported) ∧
  KnowledgeGraph demo_env "Freebase15k" None = Ok tt ∧
  (resolve_classes demo_env (lower (model (demo_args "transg" false)))
     (entered_try (demo_args "transg" false) tt initial_state)).1
  = Raise (ModuleNotFoundError "pykg2vec.core.TransG") ∧
  ∃ e st',
    __init__ demo_env (Some (demo_args "transg" false)) initial_state
    = (Raise e, st') ∧
    ev_print (not_implemented_message "transg") ∈ log st'.
Proof.
  assert (lower (model (demo_args "transg" false)) ∉ unsupported) as H1
    by (apply (bool_decide_unpack _); vm_compute; exact I).
  assert (KnowledgeGraph demo_env (dataset_name (demo_args "transg" false))
            (dataset_path (demo_args "transg" false)) = Ok tt) as H2
    by reflexivity.
  assert ((resolve_classes demo_env (lower (model (demo_args "transg" false)))
             (entered_try (demo_args "transg" false) tt initial_state)).1
          = Raise (ModuleNotFoundError "pykg2vec.core.TransG")) as H3
    by (vm_compute; reflexivity).
  split; [exact H1|]. split; [exact H2|]. split; [exact H3|].
  destruct (init_unresolvable_module_raises demo_env
              (demo_args "transg" false) tt "pykg2vec.core.TransG" H1 H2 H3)
    as (e & st' & He & Hp & _).
  exists e, st'. split; [exact He | exact Hp].
Defined.

(** In a world without the module of [TransG], construction for [transg]
    does not complete: it raises [AttributeError] for [config_obj]. *)
Lemma init_unresolvable_module_counterexample :
  (resolve_classes demo_env "transg"
     (entered_try (demo_args "transg" false) tt initial_state)).1
  = Raise (ModuleNotFoundError "pykg2vec.core.TransG") ∧
  (__init__ demo_env (Some (demo_args "transg" false)) initial_state).1
  = Raise (AttributeError "BaysOptimizer" "config_obj") ∧
  ¬ ∃ st',
      __init__ demo_env (Some (demo_args "transg" false)) initial_state
      = (Ok tt, st').
Proof.
  assert ((__init__ demo_env (Some (demo_args "transg" false))
             initial_state).1
          = Raise (AttributeError "BaysOptimizer" "config_obj")) as H
    by (vm_compute; reflexivity).
  split; [vm_compute; reflexivity|]. split; [exact H|].
  intros [st' Hst']. rewrite Hst' in H. discriminate.
Qed.

Lemma demo_tunable : tunable demo_env (demo_constructed false).
Proof.
  exists (demo_args "transe" false), demo_space, 3, demo_trainer.
  split; [by vm_compute|]. split; [by vm_compute|]. split; [by vm_compute|].
  split; [by vm_compute|]. split; [lia|]. split.
  { split; eexists; by vm_compute. }
  split; [apply (bool_decide_unpack _); vm_compute; exact I|].
  split; [apply (bool_decide_unpack _); vm_compute; exact I|]. split.
  - intros trials. cbn. unfold demo_suggest.
    destruct (Nat.even (length trials)); eexists _, _;
      split; by vm_compute.
  - intros t Ht. split; [by exists t|]. split; [by exists t|].
    by eexists _, _.
Qed.

Lemma optimize_evaluations_witness :
  __init__ demo_env (Some (demo_args "transe" false)) demo_state
  = (Ok tt, demo_constructed false) ∧
  optimize demo_env (demo_constructed false) = (Ok tt, demo_optimized false) ∧
  Z.of_nat
    (evaluations
       (events_since (demo_constructed false) (demo_optimized false))) = 3.
Proof.
  split; [exact demo_init|]. split; [exact demo_optimize|].
  exact (proj1 (proj2 (optimize_evaluations demo_env
                         (demo_args "transe" false) demo_state
                         (demo_constructed false) demo_init))
           (demo_optimized false) demo_optimize).
Defined.

Lemma trial_table_row_count_witness :
  optimize demo_env (demo_constructed false) = (Ok tt, demo_optimized false) ∧
  ∃ p df,
    ev_to_csv p df
    ∈ events_since (demo_constructed false) (demo_optimized false) ∧
    length (df_rows df)
    = evaluations
        (events_since (demo_constructed false) (demo_optimized false)).
Proof.
  split; [exact demo_optimize|].
  destruct (trial_table_row_count demo_env (demo_constructed false)
              (demo_optimized false) demo_optimize)
    as (p & df & Hin & _ & _ & Hlen & _).
  exists p, df. split; [exact Hin | exact Hlen].
Defined.

Lemma optimize_writes_trials_csv_witness :
  tunable demo_env (demo_constructed false) ∧
  optimize demo_env (demo_constructed false) = (Ok tt, demo_optimized false) ∧
  ∃ df best,
    ev_to_csv ["results"; "TransE"; "trials.csv"] df
    ∈ events_since (demo_constructed false) (demo_optimized false) ∧
    df_columns df
    = ["iteration"; "learning_rate"; "L1_flag"; "epochs"; "loss"] ∧
    return_best (demo_optimized false) = (Ok best, demo_optimized false).
Proof.
  split; [exact demo_tunable|]. split; [exact demo_optimize|].
  destruct (proj2 (optimize_writes_trials_csv demo_env
                     (demo_constructed false))
              (demo_optimized false) demo_optimize)
    as (s & t & rp & df & best & configs & Hs & Ht & Hr & Hev & Hcols & Hrb).
  exists df, best.
  assert (s = demo_space) as -> by (vm_compute in Hs; by injection Hs as <-).
  vm_compute in Ht. injection Ht as <-. vm_compute in Hr.
  injection Hr as <-. split; [|split; [exact Hcols | exact Hrb]].
  rewrite Hev. apply elem_of_app. right. right. by left.
Defined.

Lemma return_best_in_search_space_witness :
  (∀ s, search_space (self (demo_constructed false)) = Some s →
        suggest_valid demo_env s) ∧
  optimize demo_env (demo_constructed false) = (Ok tt, demo_optimized false) ∧
  ∃ best,
    return_best (demo_optimized false) = (Ok best, demo_optimized false) ∧
    ∀ k v, best !! k = Some v → ∃ d, (k, d) ∈ demo_space ∧ in_dist d v.
Proof.
  assert (∀ s, search_space (self (demo_constructed false)) = Some s →
               suggest_valid demo_env s) as H.
  { intros s Hs. vm_compute in Hs. injection Hs as <-.
    exact demo_suggest_valid. }
  split; [exact H|]. split; [exact demo_optimize|].
  destruct (return_best_in_search_space demo_env (demo_constructed false)
              (demo_optimized false) H demo_optimize)
    as (s & n & best & trials & b & point & Hs & _ & _ & Hrb & _ & _ & _ & _
        & _ & _ & Hin).
  exists best. split; [exact Hrb|].
  assert (s = demo_space) as -> by (vm_compute in Hs; by injection Hs as <-).
  exact Hin.
Defined.


Lemma return_best_before_optimize_witness :
  __init__ demo_env (Some (demo_args "transe" false)) initial_state
  = (Ok tt, demo_constructed false) ∧
  return_best (demo_constructed false)
  = (Raise (AttributeError "BaysOptimizer" "best_result"),
     demo_constructed false).
Proof.
  split; [exact demo_init|].
  exact (proj1 (return_best_before_optimize demo_env
                  (demo_args "transe" false) (demo_constructed false)
                  demo_init)).
Defined.

Lemma modelMap_class_name_resolves_witness :
  odict_get modelMap "transe" = Some "TransE" ∧
  lower "TransE" = "transe" ∧
  odict_get modelMap (lower "TransE") = Some "TransE".
Proof.
  assert (odict_get modelMap "transe" = Some "TransE") as H by reflexivity.
  split; [exact H|].
  exact (modelMap_class_name_resolves "transe" "TransE" H).
Defined.

Lemma get_loss_hyperparameters_key_witness :
  trainer (self (demo_constructed false)) = Some demo_trainer ∧
  config demo_trainer !! "hyperparameters" = Some (VDict ∅) ∧
  demo_bad_point !! "hyperparameters" = Some (SInt 1) ∧
  ∃ st',
    get_loss demo_env demo_bad_point (demo_constructed false)
    = (Raise (TypeError "object does not support item assignment"), st') ∧
    log st' = log (demo_constructed false).
Proof.
  assert (trainer (self (demo_constructed false)) = Some demo_trainer) as H1
    by (vm_compute; reflexivity).
  assert (config demo_trainer !! "hyperparameters" = Some (VDict ∅)) as H2
    by (vm_compute; reflexivity).
  assert (demo_bad_point !! "hyperparameters" = Some (SInt 1)) as H3
    by (vm_compute; reflexivity).
  split; [exact H1|]. split; [exact H2|]. split; [exact H3|].
  exact (get_loss_hyperparameters_key demo_env demo_bad_point (SInt 1)
           demo_trainer ∅ (demo_constructed false) H1 H2 H3).
Defined.

Lemma get_loss_tune_failure_witness :
  args (self (demo_constructed false)) = Some (demo_args "transe" false) ∧
  trainer (self (demo_constructed false)) = Some demo_trainer ∧
  config demo_trainer !! "hyperparameters" = Some (VDict ∅) ∧
  demo_point !! "hyperparameters" = None ∧
  build_model demo_env_failing demo_built = (Ok tt, demo_built) ∧
  summary_hyperparameter demo_env_failing demo_built = (Ok tt, demo_built) ∧
  tune_model demo_env_failing demo_built
  = (Raise demo_training_error, demo_built) ∧
  get_loss demo_env_failing demo_point (demo_constructed false)
  = (Raise demo_training_error,
     {| self := set_trainer demo_built (self (demo_constructed false));
        log := log (demo_constructed false) ++
               [ev_build_model demo_trial_config; ev_summary_hyperparameter;
                ev_tune_model] |}).
Proof.
  assert (args (self (demo_constructed false))
          = Some (demo_args "transe" false)) as H1
    by (vm_compute; reflexivity).
  assert (trainer (self (demo_constructed false)) = Some demo_trainer) as H2
    by (vm_compute; reflexivity).
  assert (config demo_trainer !! "hyperparameters" = Some (VDict ∅)) as H3
    by (vm_compute; reflexivity).
  assert (demo_point !! "hyperparameters" = None) as H4
    by (vm_compute; reflexivity).
  assert (build_model demo_env_failing demo_built = (Ok tt, demo_built))
    as H5 by reflexivity.
  assert (summary_hyperparameter demo_env_failing demo_built
          = (Ok tt, demo_built)) as H6 by reflexivity.
  assert (tune_model demo_env_failing demo_built
          = (Raise demo_training_error, demo_built)) as H7 by reflexivity.
  repeat (split; [assumption|]).
  exact (get_loss_tune_failure demo_env_failing demo_point
           (demo_args "transe" false) demo_trainer ∅ demo_built demo_built
           demo_built demo_training_error (demo_constructed false)
           H1 H2 H3 H4 H5 H6 H7).
Defined.

Lemma demo_keeps_config : trainer_keeps_config demo_env.
Proof.
  intros t. split; [by exists t|]. split; [by exists t|]. by eexists _, _.
Qed.

Lemma get_loss_trials_do_not_leak_witness :
  args (self (demo_constructed false)) = Some (demo_args "transe" false) ∧
  trainer (self (demo_constructed false)) = Some demo_trainer ∧
  config demo_trainer !! "hyperparameters" = Some (VDict ∅) ∧
  demo_point !! "hyperparameters" = None ∧
  demo_point2 !! "hyperparameters" = None ∧
  dom demo_point ⊆ dom demo_point2 ∧
  trainer_keeps_config demo_env ∧
  events_since (get_loss demo_env demo_point (demo_constructed false)).2
    (get_loss demo_env demo_point2
       (get_loss demo_env demo_point (demo_constructed false)).2).2
  = events_since (demo_constructed false)
      (get_loss demo_env demo_point2 (demo_constructed false)).2.
Proof.
  assert (args (self (demo_constructed false))
          = Some (demo_args "transe" false)) as H1
    by (vm_compute; reflexivity).
  assert (trainer (self (demo_constructed false)) = Some demo_trainer) as H2
    by (vm_compute; reflexivity).
  assert (config demo_trainer !! "hyperparameters" = Some (VDict ∅)) as H3
    by (vm_compute; reflexivity).
  assert (demo_point !! "hyperparameters" = None) as H4
    by (vm_compute; reflexivity).
  assert (demo_point2 !! "hyperparameters" = None) as H5
    by (vm_compute; reflexivity).
  assert (dom demo_point ⊆ dom demo_point2) as H6.
  { unfold demo_point2. rewrite dom_insert. apply union_subseteq_r. }
  repeat (split; [assumption || exact demo_keeps_config|]).
  exact (proj1 (get_loss_trials_do_not_leak demo_env demo_point demo_point2
                  (demo_args "transe" false) demo_trainer ∅
                  (demo_constructed false) H1 H2 H3 H4 H5 H6
                  demo_keeps_config)).
Defined.




Lemma demo_optimize_again :
  optimize demo_env (demo_optimized false)
  = (Ok tt, (optimize demo_env (demo_optimized false)).2).
Proof. vm_compute. reflexivity. Qed.

Lemma optimize_again_starts_afresh_witness :
  optimize demo_env (demo_constructed false) = (Ok tt, demo_optimized false) ∧
  optimize demo_env (demo_optimized false)
  = (Ok tt, (optimize demo_env (demo_optimized false)).2) ∧
  evaluations
    (events_since (demo_optimized false)
       (optimize demo_env (demo_optimized false)).2)
  = evaluations (events_since (demo_constructed false) (demo_optimized false)).
Proof.
  split; [exact demo_optimize|]. split; [exact demo_optimize_again|].
  exact (proj1 (optimize_again_starts_afresh demo_env
                  (demo_constructed false) (demo_optimized false) _
                  demo_optimize demo_optimize_again)).
Defined.


